(** * agp.py: orchestration of search-index provisioning

    A shallow embedding of [agp.py].  The script drives an external
    provisioning engine (Pulumi) over a list of environments and keeps a
    few configuration files in step with the outcome.  The embedding
    follows the script function by function:

    - Python values that come out of YAML and JSON documents are the
      inductive type [value]; the dynamic checks Python performs on them
      ([.get] on something that is not a dict, [len] of a number, ...)
      are written out and raise the exception Python raises;
    - exceptions are the type [exn]; [SystemExit] is kept apart from the
      subclasses of [Exception] because [except Exception] lets it through
      whereas a bare [except:] catches it;
    - everything outside the process (the engine, the [gcloud] and
      [pulumi] command lines, whether a file can be opened for writing) is
      an oracle [Externals], consulted with the current world;
    - the world is the file system together with the chronological trace
      of the calls that leave the interpreter and of the calls to
      [logging].  The [print] statements of the script are not part of the
      trace. *)

From Stdlib Require Import String Ascii ZArith List Bool Lia.
From stdpp Require Import base option list strings gmap pretty.

Set Warnings "-register-all".
Local Open Scope string_scope.
Local Open Scope Z_scope.

(** ** Python values *)

(** The values [yaml.safe_load] and [json.load] hand to the script:
    [None], booleans, integers, strings, lists, and dicts with string
    keys (floats, dates and keys of other types are left out).  A dict is
    an association list in insertion order with at most one binding per
    key (Python dicts keep insertion order, and the script iterates over
    them). *)
Inductive value : Type :=
| VNull
| VBool (b : bool)
| VInt (z : Z)
| VStr (s : string)
| VList (l : list value)
| VDict (m : list (string * value)).

(** Exceptions.  [is_Exception] tells the subclasses of [Exception] from
    [SystemExit], a [BaseException] raised by [exit(code)]. *)
Inductive exn : Type :=
| SystemExit (code : Z)
| KeyError
| TypeError
| AttributeError
| ValueError
| NameError
| FileNotFoundError
| YAMLError
| OtherError (cls : string).

Definition is_Exception (e : exn) : bool :=
  match e with SystemExit _ => false | _ => true end.

Definition is_KeyError (e : exn) : bool :=
  match e with KeyError => true | _ => false end.

Definition is_YAMLError (e : exn) : bool :=
  match e with YAMLError => true | _ => false end.

Inductive result (A : Type) : Type :=
| Ret (a : A)
| Raise (e : exn).
Arguments Ret {A} a.
Arguments Raise {A} e.

(** ** Dicts *)

Fixpoint dict_lookup (k : string) (m : list (string * value)) : option value :=
  match m with
  | [] => None
  | (k', v) :: m' => if String.eqb k k' then Some v else dict_lookup k m'
  end.

(** [d[k] = v]: an existing key keeps its position, a new key goes last. *)
Fixpoint dict_set (k : string) (v : value) (m : list (string * value))
  : list (string * value) :=
  match m with
  | [] => [(k, v)]
  | (k', v') :: m' =>
      if String.eqb k k' then (k, v) :: m' else (k', v') :: dict_set k v m'
  end.

(** [del d[k]], for a key that is present. *)
Fixpoint dict_del (k : string) (m : list (string * value))
  : list (string * value) :=
  match m with
  | [] => []
  | (k', v') :: m' =>
      if String.eqb k k' then m' else (k', v') :: dict_del k m'
  end.

Definition dict_keys (m : list (string * value)) : list string := map fst m.

(** ** Strings *)

(** [s.replace(old, new)] for one-character [old] and [new]. *)
Fixpoint str_replace (old new : ascii) (s : string) : string :=
  match s with
  | EmptyString => EmptyString
  | String c s' =>
      String (if Ascii.eqb c old then new else c) (str_replace old new s')
  end.

(** [s.split(sep)] for a non-empty separator: the pieces between the
    non-overlapping occurrences of [sep], scanned from the left.  [skip]
    counts the characters of a matched separator still to be dropped. *)
Fixpoint split_go (sep : string) (skip : nat) (s : string) : list string :=
  match s with
  | EmptyString => [EmptyString]
  | String c s' =>
      match skip with
      | S k => split_go sep k s'
      | O =>
          if String.prefix sep s
          then EmptyString :: split_go sep (String.length sep - 1) s'
          else match split_go sep 0 s' with
               | p :: ps => String c p :: ps
               | [] => [String c EmptyString]
               end
      end
  end.

Definition str_split (sep s : string) : list string := split_go sep 0 s.

(** [l.remove(x)]: drops the first occurrence, [None] stands for
    [ValueError]. *)
Fixpoint list_remove (x : string) (l : list string) : option (list string) :=
  match l with
  | [] => None
  | y :: l' =>
      if String.eqb y x then Some l'
      else match list_remove x l' with
           | Some r => Some (y :: r)
           | None => None
           end
  end.

(** No character of [s] is a dot. *)
Fixpoint dot_free (s : string) : bool :=
  match s with
  | EmptyString => true
  | String c s' => negb (Ascii.eqb c "."%char) && dot_free s'
  end.

(** [os.path.join(dir, name)] for a relative [name]. *)
Definition ends_with_slash (s : string) : bool :=
  match String.get (String.length s - 1) s with
  | Some c => Ascii.eqb c "/"%char
  | None => false
  end.

Definition path_join (dir name : string) : string :=
  if String.eqb dir "" then name
  else if ends_with_slash dir then dir ++ name
  else dir ++ "/" ++ name.

(** ** Dynamic operations on values *)

(** [d.get(k, default)]: only dicts have a [get] method. *)
Definition py_get (d : value) (k : string) (default : value) : result value :=
  match d with
  | VDict m =>
      match dict_lookup k m with Some v => Ret v | None => Ret default end
  | _ => Raise AttributeError
  end.

(** [d[k]] for a string [k]. *)
Definition py_getitem (d : value) (k : string) : result value :=
  match d with
  | VDict m =>
      match dict_lookup k m with Some v => Ret v | None => Raise KeyError end
  | _ => Raise TypeError
  end.

(** [d[k] = v] for a string [k]; the updated container is returned, the
    caller puts it back where Python's aliasing would show it. *)
Definition py_setitem (d : value) (k : string) (v : value) : result value :=
  match d with
  | VDict m => Ret (VDict (dict_set k v m))
  | _ => Raise TypeError
  end.

(** [del d[k]] for a string [k]. *)
Definition py_delitem (d : value) (k : string) : result value :=
  match d with
  | VDict m =>
      match dict_lookup k m with
      | Some _ => Ret (VDict (dict_del k m))
      | None => Raise KeyError
      end
  | _ => Raise TypeError
  end.

Definition str_len (s : string) : Z := Z.of_nat (String.length s).

Definition py_len (v : value) : result Z :=
  match v with
  | VStr s => Ret (str_len s)
  | VList l => Ret (Z.of_nat (length l))
  | VDict m => Ret (Z.of_nat (length m))
  | _ => Raise TypeError
  end.

Definition num_of (v : value) : option Z :=
  match v with
  | VInt z => Some z
  | VBool b => Some (if b then 1 else 0)
  | _ => None
  end.

(** [a + b]. *)
Definition py_add (a b : value) : result value :=
  match a, b with
  | VList l1, VList l2 => Ret (VList (l1 ++ l2))
  | VStr s1, VStr s2 => Ret (VStr (s1 ++ s2))
  | _, _ =>
      match num_of a, num_of b with
      | Some x, Some y => Ret (VInt (x + y))
      | _, _ => Raise TypeError
      end
  end.

Fixpoint str_chars (s : string) : list value :=
  match s with
  | EmptyString => []
  | String c s' => VStr (String c EmptyString) :: str_chars s'
  end.

(** The elements a [for] loop or a comprehension runs over. *)
Definition py_iter (v : value) : result (list value) :=
  match v with
  | VList l => Ret l
  | VDict m => Ret (map VStr (dict_keys m))
  | VStr s => Ret (str_chars s)
  | _ => Raise TypeError
  end.

(** ** The world outside the interpreter *)

(** What [stack.preview()], [stack.up()], [stack.destroy()] and
    [workspace.remove_stack()] return.  [resource_changes] is
    [resp.summary.resource_changes]. *)
Inductive response : Type :=
| PreviewResult (stdout stderr : string) (change_summary : value)
| UpResult (resource_changes : value)
| DestroyResult (resource_changes : value)
| NoneResult.

(** The inline program handed to [auto.create_or_select_stack], named by
    the function it calls and the data it closes over. *)
Inductive program : Type :=
| ProgIndexes (algolia_indexes : value)
| ProgApiKeys (algolia_api_keys : value)
| ProgSecrets (username : string) (secrets : value).

Inductive call : Type :=
| GcloudInfo
| CreateOrSelectStack (stack_name project_name : string) (prog : program)
| SetConfig (stack_name key : string) (v : value) (secret : bool)
| StackPreview (stack_name : string)
| StackDestroy (stack_name : string)
| RemoveStack (stack_name : string)
| StackUp (stack_name : string)
| PulumiStackSelect (stack_name : string)
| PulumiStackOutput
| OpenForWriting (path : string)
| Unlink (path : string)
| YamlSafeLoad (path : string).

Inductive level : Type := Info | Warning | Error.

(** The calls to [logging], by the message template used. *)
Inductive message : Type :=
| MsgPreview (resp : response)
| MsgRemovingResources (stack_name : string)
| MsgRemovingStack (stack_name : string)
| MsgUpdatingStack (stack_name : string)
| MsgUnknownVerb (verb : string)
| MsgYamlError
| MsgJsonError (config_file : string)
| MsgEnvMissing (env config_file : string)
| MsgException (e : exn)
| MsgWriteError (filename : string) (e : exn).

Inductive event : Type :=
| ECall (c : call)
| ELog (l : level) (m : message).

(** What [json.load] makes of a file: a JSON document, given by the
    value it loads as ([json.dumps] writes the document of a value), or
    text that it rejects.  What [yaml.safe_load] makes of a file is not
    decided here: it is an answer of the oracle, [YamlSafeLoad]. *)
Inductive content : Type :=
| Doc (v : value)
| Raw (text : string).

Record world : Type := World {
  files : gmap string content;
  trace : list event;
}.

(** The oracle.  [raises w c] is the exception call [c] ends with in
    world [w], if any; [returns_value] and [returns_response] are what it
    returns otherwise.  [int_of_str] is the builtin [int] on strings and
    [repr_container] the builtin [str] on lists and dicts.  The answer to
    [YamlSafeLoad path] is what [yaml.safe_load] does on the file at
    [path]: the value it returns, or the exception it raises, a
    [YAMLError] or another one. *)
Record Externals : Type := {
  raises : world -> call -> option exn;
  returns_value : world -> call -> value;
  returns_response : world -> call -> response;
  int_of_str : string -> option Z;
  repr_container : value -> string;
  SCRIPT_DIR : string;
}.

(** ** The monad of the script: state and exceptions *)

Definition M (A : Type) : Type := world -> result A * world.

#[export] Instance M_ret : MRet M := fun A a w => (Ret a, w).

#[export] Instance M_bind : MBind M := fun A B f m w =>
  match m w with
  | (Ret a, w') => f a w'
  | (Raise e, w') => (Raise e, w')
  end.

Definition raise {A : Type} (e : exn) : M A := fun w => (Raise e, w).

Definition lift {A : Type} (r : result A) : M A := fun w => (r, w).

Definition exit {A : Type} (code : Z) : M A := raise (SystemExit code).

(** [try: body / except <classes>: handler]: the effects of [body] up to
    the exception stay. *)
Definition try_except {A : Type} (body : M A) (catches : exn -> bool)
    (handler : exn -> M A) : M A := fun w =>
  match body w with
  | (Raise e, w') => if catches e then handler e w' else (Raise e, w')
  | r => r
  end.

(** [try: body / finally: cleanup]. *)
Definition try_finally {A : Type} (body : M A) (cleanup : M unit) : M A :=
  fun w =>
    let '(r, w') := body w in
    match cleanup w' with
    | (Ret _, w'') => (r, w'')
    | (Raise e, w'') => (Raise e, w'')
    end.

Definition emit (ev : event) : M unit := fun w =>
  (Ret tt, World (files w) (trace w ++ [ev])).

Definition logging (l : level) (m : message) : M unit := emit (ELog l m).

Definition set_file (path : string) (c : content) : M unit := fun w =>
  (Ret tt, World (<[path := c]> (files w)) (trace w)).

Definition remove_file (path : string) : M unit := fun w =>
  (Ret tt, World (delete path (files w)) (trace w)).

(** [open(path)] for reading. *)
Definition open_file (path : string) : M content := fun w =>
  match files w !! path with
  | Some c => (Ret c, w)
  | None => (Raise FileNotFoundError, w)
  end.

(** ** The script *)

(** The parsed command line ([collection] is parsed and never read). *)
Record Args : Type := {
  verb : string;
  environment : string;
  config_file : string;
  indexes_only : bool;
  api_keys_only : bool;
  arg_skip_update_extensions : bool;
  arg_skip_update_firebase_config : bool;
  agp_secrets : string;
  extensions_dir : string;
  firebase_config : string;
}.

(** The tuple [get_env_config] returns. *)
Record EnvConfig : Type := {
  cfg_algolia_api_key_name : value;
  cfg_force_data_sync : value;
  cfg_location : value;
  cfg_environments : value;
  cfg_algolia_indexes : value;
  cfg_algolia_api_keys : value;
  cfg_firebase_search_extension : value;
}.

(** The keyword arguments of [ApiKey(...)]. *)
Record ApiKeyArgs : Type := {
  acls : value;
  description : value;
  indexes : value;
  max_hits_per_query : Z;
  max_queries_per_ip_per_hour : Z;
  referers : value;
  validity : Z;
}.

(** What a Pulumi program declares. *)
Inductive declared : Type :=
| DeclIndex (resource_name : string) (name : value)
| DeclApiKey (resource_name : string) (args : ApiKeyArgs)
| DeclExport (output_name : string) (resource_name : string).

(** [update_dictionary] of [run], unpacked by [create_or_update_cfg_files]. *)
Record UpdateDictionary : Type := {
  skip_update_extensions : bool;
  skip_update_firebase_config : bool;
  ud_environment : value;
  environment_config : value;
  algolia_indexes : value;
  firebase_search_extension : value;
  algolia_api_key_name : value;
  admin_app_id : value;
  force_data_sync : value;
  location : value;
  ud_extensions_dir : string;
  firebase_config_file : string;
}.

Definition nl : string := String "010"%char EmptyString.

(** Pure [result] computations are sequenced with the same notation. *)
#[export] Instance result_ret : MRet result := fun A a => Ret a.

#[export] Instance result_bind : MBind result := fun A B f r =>
  match r with
  | Ret a => f a
  | Raise e => Raise e
  end.

Section Script.

Variable E : Externals.

(** [str(v)], as an f-string interpolates it. *)
Definition py_str (v : value) : string :=
  match v with
  | VStr s => s
  | VNull => "None"
  | VBool true => "True"
  | VBool false => "False"
  | VInt z => pretty z
  | _ => repr_container E v
  end.

(** [int(v)]. *)
Definition py_int (v : value) : result Z :=
  match v with
  | VInt z => Ret z
  | VBool b => Ret (if b then 1 else 0)
  | VStr s =>
      match int_of_str E s with Some z => Ret z | None => Raise ValueError end
  | _ => Raise TypeError
  end.

(** A call that leaves the interpreter: recorded, then answered by the
    oracle in the world the call was made in. *)
Definition do_call (c : call) : M unit := fun w =>
  let w' := World (files w) (trace w ++ [ECall c]) in
  match raises E w c with
  | Some e => (Raise e, w')
  | None => (Ret tt, w')
  end.

Definition call_value (c : call) : M value := fun w =>
  match do_call c w with
  | (Ret _, w') => (Ret (returns_value E w c), w')
  | (Raise e, w') => (Raise e, w')
  end.

Definition call_response (c : call) : M response := fun w =>
  match do_call c w with
  | (Ret _, w') => (Ret (returns_response E w c), w')
  | (Raise e, w') => (Raise e, w')
  end.

(** A library call inside the interpreter, answered by the oracle: it has
    no effect and is not part of the trace. *)
Definition consult (c : call) : M value := fun w =>
  match raises E w c with
  | Some e => (Raise e, w)
  | None => (Ret (returns_value E w c), w)
  end.

(** [Path(path).unlink(missing_ok=True)]: a missing file is not an
    error; any other failure (permissions, a directory in the way) is the
    oracle's to raise, and then the file stays. *)
Definition unlink (path : string) : M unit :=
  do_call (Unlink path);; remove_file path.

(** [get_gcloud_config] followed by the [json.loads] of [run]. *)
Definition get_gcloud_config : M value := call_value GcloudInfo.

(** [create_or_update_algolia_indexes]: one [Index] per entry. *)
Definition create_or_update_algolia_indexes (idxs : value)
  : result (list declared) :=
  l ← py_iter idxs;
  mret (map (fun idx => DeclIndex ("algolia-index-" ++ py_str idx) idx) l).

(** The body of the loop of [create_or_update_algolia_api_keys]. *)
Definition api_key_resource (api_key : value) : result (string * ApiKeyArgs) :=
  name ← py_get api_key "name" VNull;
  acls ← py_get api_key "acls" VNull;
  indexes ← py_get api_key "indexes" (VList []);
  description ← py_get api_key "description"
                  (VStr ("API Key for " ++ py_str name));
  max_api_call ← (py_get api_key "maxApiCall" (VInt 15000) ≫= py_int);
  max_hits_per_query ← (py_get api_key "maxHitsPerQuery" (VInt 0) ≫= py_int);
  referers ← py_get api_key "referers" (VList []);
  validity ← (py_get api_key "validity" (VInt 0) ≫= py_int);
  mret ("algolia-api-key-" ++ py_str name,
        {| acls := acls;
           description := description;
           indexes := indexes;
           max_hits_per_query := max_hits_per_query;
           max_queries_per_ip_per_hour := max_api_call;
           referers := referers;
           validity := validity |}).

(** The loop declares as it goes: when a specification raises, the keys
    and exports of the specifications before it are already declared.
    The outcome is what was declared and the exception, if any. *)
Fixpoint api_key_loop (api_keys : list value) : list declared * option exn :=
  match api_keys with
  | [] => ([], None)
  | api_key :: rest =>
      match api_key_resource api_key with
      | Raise e => ([], Some e)
      | Ret (resource_name, args) =>
          let '(ds, raised) := api_key_loop rest in
          (DeclApiKey resource_name args
           :: DeclExport resource_name resource_name :: ds, raised)
      end
  end.

Definition create_or_update_algolia_api_keys (api_keys : value)
  : list declared * option exn :=
  match py_iter api_keys with
  | Ret l => api_key_loop l
  | Raise e => ([], Some e)
  end.

(** [write_to_file]: a failure to open or write is logged and swallowed. *)
Definition write_to_file (filename : string) (data : content) : M unit :=
  try_except
    (do_call (OpenForWriting filename);; set_file filename data)
    is_Exception
    (fun e => logging Error (MsgWriteError filename e)).

Definition pulumi_file : string := path_join (SCRIPT_DIR E) "Pulumi.yaml".

Definition create_pulumi_file (project_name : string) : M unit :=
  let data :=
    "name: " ++ project_name ++ nl ++
    "runtime:" ++ nl ++
    "  name: python" ++ nl ++
    "  options:" ++ nl ++
    "    virtualenv: venv" ++ nl ++
    "description: A minimal Python Pulumi Program" ++ nl in
  write_to_file pulumi_file (Raw data).

Definition get_secret_values (project_name stack_name : string) : M value :=
  create_pulumi_file project_name;;
  do_call (PulumiStackSelect stack_name);;
  call_value PulumiStackOutput.

(** [get_config_from_yaml_file]: [open] is outside the [try], and the
    [try] catches [yaml.YAMLError] only. *)
Definition get_config_from_yaml_file (config_file : string) : M value :=
  cf ← open_file config_file;
  try_except
    (consult (YamlSafeLoad config_file))
    is_YAMLError
    (fun e => logging Error MsgYamlError;; exit 1).

(** [get_config_from_json_file]: [open] is outside the [try], which
    catches every [Exception]. *)
Definition get_config_from_json_file (config_file : string) : M value :=
  cf ← open_file config_file;
  match cf with
  | Doc v => mret v
  | Raw _ => logging Error (MsgJsonError config_file);; exit 1
  end.

Definition execute_pulumi_verb (stack_name verb : string) : M response :=
  if String.eqb verb "preview" then
    resp ← call_response (StackPreview stack_name);
    logging Info (MsgPreview resp);;
    exit 0
  else if String.eqb verb "rm" || String.eqb verb "rm-stack" then
    logging Info (MsgRemovingResources stack_name);;
    resp ← call_response (StackDestroy stack_name);
    if String.eqb verb "rm-stack" then
      logging Info (MsgRemovingStack stack_name);;
      do_call (RemoveStack stack_name);;
      mret NoneResult
    else mret resp
  else if String.eqb verb "up" then
    logging Info (MsgUpdatingStack stack_name);;
    call_response (StackUp stack_name)
  else
    logging Error (MsgUnknownVerb verb);;
    exit 1.

Definition get_environments_to_deploy (env : string) : list string :=
  let environments := str_split "," env in
  match list_remove "all" environments with
  | Some rest => rest
  | None => environments
  end.

Definition get_env_config (cfg : value) : M EnvConfig :=
  try_except
    (lift (
      global_cfg ← py_get cfg "global" VNull;
      algolia_api_key_name ← py_get global_cfg "algoliaApiKeyName" VNull;
      force_data_sync ← py_get global_cfg "forceDataSync" (VStr "no");
      location ← py_get global_cfg "location" (VStr "us-west2");
      environments ← py_get global_cfg "environments" VNull;
      firebase_search_extension ←
        py_get global_cfg "searchExtension"
          (VStr "algolia/firestore-algolia-search@0.5.13");
      algolia_indexes ← py_get cfg "algoliaIndexes" VNull;
      algolia_api_keys ← py_get cfg "algoliaApiKeys" VNull;
      mret {| cfg_algolia_api_key_name := algolia_api_key_name;
              cfg_force_data_sync := force_data_sync;
              cfg_location := location;
              cfg_environments := environments;
              cfg_algolia_indexes := algolia_indexes;
              cfg_algolia_api_keys := algolia_api_keys;
              cfg_firebase_search_extension := firebase_search_extension |}))
    is_Exception
    (fun e => logging Error (MsgException e);; exit 1).

(** [for x in xs: body]. *)
Fixpoint for_each {A : Type} (xs : list A) (body : A -> M unit) : M unit :=
  match xs with
  | [] => mret tt
  | x :: rest => body x;; for_each rest body
  end.

(** [index.replace(".", "-")]: only strings have the method. *)
Definition py_replace_dots (index : value) : result string :=
  match index with
  | VStr s => Ret (str_replace "."%char "-"%char s)
  | _ => Raise AttributeError
  end.

(** [prefix + environment], for a string [prefix]. *)
Definition py_concat (prefix : string) (v : value) : result string :=
  match v with
  | VStr s => Ret (prefix ++ s)
  | _ => Raise TypeError
  end.

(** [extension_file_name.split(".env")[0]]. *)
Definition extension_of (extension_file_name : string) : string :=
  hd "" (str_split ".env" extension_file_name).

(** Lines 349-364, the extension file.  Line 352 reads the name
    [admin_app_id], which is bound neither in the function (the value was
    unpacked into [admmin_app_id]) nor at module level: evaluating the
    default argument raises [NameError], so the text of the file is never
    built and nothing is written. *)
Definition update_extension_file (u : UpdateDictionary) : M unit :=
  env_algolia_api_key_name ←
    lift (py_get (environment_config u) "algoliaApiKeyName"
            (algolia_api_key_name u));
  raise NameError.

(** Lines 366-376, the manifest.  [firebase_extensions] is the very object
    stored under ["extensions"] in [firebase_cfg], so the assignment shows
    in [firebase_cfg] when it is dumped. *)
Definition put_back (firebase_cfg firebase_extensions : value) : value :=
  match firebase_cfg with
  | VDict m => VDict (dict_set "extensions" firebase_extensions m)
  | _ => firebase_cfg
  end.

Definition update_firebase_config (u : UpdateDictionary)
    (extension_file_name : string) : M unit :=
  firebase_cfg ← get_config_from_json_file (firebase_config_file u);
  firebase_extensions ← lift (py_get firebase_cfg "extensions" VNull);
  let extension := extension_of extension_file_name in
  firebase_extensions ←
    lift (py_setitem firebase_extensions extension
            (firebase_search_extension u));
  write_to_file (firebase_config_file u)
    (Doc (put_back firebase_cfg firebase_extensions)).

(** Line 345: ["search-" + index.replace(".", "-") + ".env." + environment]. *)
Definition extension_file_name (index environment : value) : result string :=
  replaced ← py_replace_dots index;
  py_concat ("search-" ++ replaced ++ ".env.") environment.

(** The body of the loop of [create_or_update_cfg_files]. *)
Definition cfg_files_body (u : UpdateDictionary) (index : value) : M unit :=
  extension_file_name ← lift (extension_file_name index (ud_environment u));
  (if negb (skip_update_extensions u)
   then update_extension_file u else mret tt);;
  if negb (skip_update_firebase_config u)
  then update_firebase_config u extension_file_name else mret tt.

Definition create_or_update_cfg_files (u : UpdateDictionary) : M unit :=
  idxs ← lift (py_iter (algolia_indexes u));
  for_each idxs (cfg_files_body u).

Definition get_agp_admin_config (config_file env : string)
  : M (value * value * value) :=
  try_except
    (cfg ← get_config_from_json_file config_file;
     admin_api_key ← lift (py_getitem cfg env ≫= fun c => py_getitem c "apiKey");
     admin_app_id ← lift (py_getitem cfg env ≫= fun c => py_getitem c "appId");
     gcp_project ←
       lift (py_getitem cfg env ≫= fun c => py_getitem c "gcpProject");
     mret (admin_api_key, admin_app_id, gcp_project))
    is_Exception
    (fun e =>
       if is_KeyError e then
         logging Warning (MsgEnvMissing env config_file);;
         mret (VStr "", VStr "", VStr "")
       else
         logging Error (MsgException e);;
         exit 1).

(** [resp.summary.resource_changes]. *)
Definition summary_resource_changes (resp : response) : result value :=
  match resp with
  | UpResult rc => Ret rc
  | DestroyResult rc => Ret rc
  | _ => Raise AttributeError
  end.

(** [skip_file_update]: the bare [except: pass] keeps the default. *)
Definition skip_file_update (resp : response) (verb : string) : bool :=
  if String.eqb verb "up" then
    match
      resource_changes ← summary_resource_changes resp;
      resource_changes ← py_delitem resource_changes "same";
      n ← py_len resource_changes;
      mret (if Z.eqb n 0 then true else false)
    with
    | Ret skip => skip
    | Raise _ => true
    end
  else true.

(** Lines 467-488 of [run]: which stages are deployed and the initial
    file-sync flags.  [or] evaluates its operands from the left and stops
    at the first true one. *)
Record StageFlags : Type := {
  deploy_indexes : bool;
  deploy_api_keys : bool;
  flag_skip_update_extensions : bool;
  flag_skip_update_firebase_config : bool;
}.

Definition credentials_incomplete (admin_api_key admin_app_id gcp_project : value)
  : result bool :=
  n1 ← py_len admin_api_key;
  if Z.eqb n1 0 then mret true else
  n2 ← py_len admin_app_id;
  if Z.eqb n2 0 then mret true else
  n3 ← py_len gcp_project;
  mret (Z.eqb n3 0).

Definition stage_flags (args : Args)
    (admin_api_key admin_app_id gcp_project : value) : result StageFlags :=
  let both := negb (indexes_only args) && negb (api_keys_only args) in
  incomplete ← credentials_incomplete admin_api_key admin_app_id gcp_project;
  Ret (if incomplete : bool then
         {| deploy_indexes := false;
            deploy_api_keys := false;
            flag_skip_update_extensions := true;
            flag_skip_update_firebase_config := true |}
       else
         {| deploy_indexes := if both then true else indexes_only args;
            deploy_api_keys := if both then true else api_keys_only args;
            flag_skip_update_extensions := arg_skip_update_extensions args;
            flag_skip_update_firebase_config :=
              arg_skip_update_firebase_config args |}).

(** The [try] block of the index stage (lines 495-509). *)
Definition indexes_try (args : Args) (project_name : string)
    (admin_api_key admin_app_id algolia_indexes : value) : M bool :=
  let stack_name_indexes := project_name ++ "-indexes" in
  do_call (CreateOrSelectStack stack_name_indexes project_name
             (ProgIndexes algolia_indexes));;
  do_call (SetConfig stack_name_indexes "algolia:apiKey" admin_api_key true);;
  do_call (SetConfig stack_name_indexes "algolia:applicationId"
             admin_app_id false);;
  resp ← execute_pulumi_verb stack_name_indexes (verb args);
  mret (skip_file_update resp (verb args)).

(** Lines 490-511: the index stage, guarded by a bare [except:]. *)
Definition indexes_stage (args : Args) (c : EnvConfig) (env_conf : value)
    (project_name : string) (admin_api_key admin_app_id : value)
  : M (bool * value) :=
  env_indexes ← lift (py_get env_conf "algoliaIndexes" (VList []));
  algolia_indexes ← lift (py_add (cfg_algolia_indexes c) env_indexes);
  skip ← try_except
           (indexes_try args project_name admin_api_key admin_app_id
              algolia_indexes)
           (fun _ => true)
           (fun _ => mret true);
  mret (skip, algolia_indexes).

(** The [try] block of the API-key stage (lines 519-548). *)
Definition api_keys_try (args : Args) (username project_name : string)
    (admin_api_key admin_app_id gcp_project algolia_api_keys : value)
  : M bool :=
  let stack_name_api_keys := project_name ++ "-api-keys" in
  let stack_name_secrets := project_name ++ "-secrets" in
  do_call (CreateOrSelectStack stack_name_api_keys project_name
             (ProgApiKeys algolia_api_keys));;
  do_call (SetConfig stack_name_api_keys "algolia:apiKey" admin_api_key true);;
  do_call (SetConfig stack_name_api_keys "algolia:applicationId"
             admin_app_id false);;
  resp ← execute_pulumi_verb stack_name_api_keys (verb args);
  let skip := skip_file_update resp (verb args) in
  secrets ← get_secret_values project_name stack_name_api_keys;
  do_call (CreateOrSelectStack stack_name_secrets project_name
             (ProgSecrets username secrets));;
  do_call (SetConfig stack_name_secrets "gcp:project" gcp_project false);;
  resp ← execute_pulumi_verb stack_name_secrets (verb args);
  mret skip.

(** Lines 513-557: the API-key and secrets stage, guarded by
    [except Exception] and a [finally] that removes [Pulumi.yaml]. *)
Definition api_keys_stage (args : Args) (c : EnvConfig) (env_conf : value)
    (username project_name : string)
    (admin_api_key admin_app_id gcp_project : value) : M bool :=
  env_api_keys ← lift (py_get env_conf "algoliaApiKeys" (VList []));
  algolia_api_keys ← lift (py_add (cfg_algolia_api_keys c) env_api_keys);
  try_finally
    (try_except
       (api_keys_try args username project_name admin_api_key admin_app_id
          gcp_project algolia_api_keys)
       is_Exception
       (fun e => logging Error (MsgException e);; mret true))
    (unlink pulumi_file).

(** [envs.get(env)]: lists and dicts are not hashable. *)
Definition py_get_key (d key : value) : result value :=
  match d with
  | VDict m =>
      match key with
      | VStr k =>
          match dict_lookup k m with Some v => Ret v | None => Ret VNull end
      | VList _ | VDict _ => Raise TypeError
      | _ => Ret VNull
      end
  | _ => Raise AttributeError
  end.

(** Lines 465-572: the stages of one environment, once its credentials
    are known, up to the [update_dictionary] they hand to the file
    synchronisation. *)
Definition stages (args : Args) (c : EnvConfig) (username : string)
    (env env_conf : value) (project_name : string)
    (admin_api_key admin_app_id gcp_project : value) : M UpdateDictionary :=
  fl ← lift (stage_flags args admin_api_key admin_app_id gcp_project);
  '(skip_update_extensions, algolia_indexes) ←
    (if deploy_indexes fl
     then indexes_stage args c env_conf project_name admin_api_key admin_app_id
     else mret (flag_skip_update_extensions fl, VList []));
  skip_update_firebase_config ←
    (if deploy_api_keys fl
     then api_keys_stage args c env_conf username project_name
            admin_api_key admin_app_id gcp_project
     else mret (flag_skip_update_firebase_config fl));
  mret {| skip_update_extensions := skip_update_extensions;
          skip_update_firebase_config := skip_update_firebase_config;
          ud_environment := env;
          environment_config := env_conf;
          algolia_indexes := algolia_indexes;
          firebase_search_extension := cfg_firebase_search_extension c;
          algolia_api_key_name := cfg_algolia_api_key_name c;
          admin_app_id := admin_app_id;
          force_data_sync := cfg_force_data_sync c;
          location := cfg_location c;
          ud_extensions_dir := extensions_dir args;
          firebase_config_file := firebase_config args |}.

(** Lines 465-574: the stages, then [create_or_update_cfg_files]. *)
Definition provision (args : Args) (c : EnvConfig) (username : string)
    (env env_conf : value) (project_name : string)
    (admin_api_key admin_app_id gcp_project : value) : M unit :=
  update_dictionary ← stages args c username env env_conf project_name
                        admin_api_key admin_app_id gcp_project;
  create_or_update_cfg_files update_dictionary.

(** The body of the loop of [run] (lines 455-574). *)
Definition deploy_environment (args : Args) (c : EnvConfig)
    (username : string) (env : value) : M unit :=
  env_conf ← lift (py_get_key (cfg_environments c) env);
  env_prefix ← lift (py_get env_conf "prefix" VNull);
  env_ns ← lift (py_get env_conf "namespace" VNull);
  '(admin_api_key, admin_app_id, gcp_project) ←
    get_agp_admin_config (agp_secrets args)
      (py_str env_ns ++ "-" ++ py_str env);
  let project_name :=
    py_str env_prefix ++ "--" ++ py_str env_ns ++ "-" ++ py_str env in
  provision args c username env env_conf project_name
    admin_api_key admin_app_id gcp_project.

(** Lines 450-452: the environments of the run. *)
Definition selected_environments (filter : string) (envs : value)
  : result (list value) :=
  let environments := get_environments_to_deploy filter in
  if Nat.eqb (length environments) 0
  then py_iter envs
  else Ret (map VStr environments).

(** [account.split("@")[0]]. *)
Definition username_of (account : value) : result string :=
  match account with
  | VStr s => Ret (hd "" (str_split "@" s))
  | _ => Raise AttributeError
  end.

Definition run (args : Args) : M unit :=
  config ← get_gcloud_config;
  account ← lift (py_getitem config "config" ≫= fun c => py_getitem c "account");
  username ← lift (username_of account);
  cfg ← get_config_from_yaml_file (config_file args);
  c ← get_env_config cfg;
  environments ←
    lift (selected_environments (environment args) (cfg_environments c));
  for_each environments (deploy_environment args c username).

End Script.

(** The exit status of the process for an outcome of [run]: [exit(code)]
    gives [code], an uncaught exception a traceback and status 1. *)
Definition exit_status (r : result unit) : Z :=
  match r with
  | Ret _ => 0
  | Raise (SystemExit code) => code
  | Raise _ => 1
  end.

(** ** Sample configurations *)

(** An engine that never fails.  [up] reports one created resource next
    to the unchanged ones, [preview] an empty plan, and [yaml.safe_load]
    loads a document as the value the file holds. *)
Definition calm : Externals := {|
  raises := fun _ _ => None;
  returns_value := fun w c =>
    match c with
    | GcloudInfo =>
        VDict [("config", VDict [("account", VStr "ops@example.com")])]
    | YamlSafeLoad path =>
        match files w !! path with Some (Doc v) => v | _ => VNull end
    | _ => VDict []
    end;
  returns_response := fun _ c =>
    match c with
    | StackPreview _ => PreviewResult "" "" (VDict [])
    | StackUp _ => UpResult (VDict [("same", VInt 2); ("create", VInt 1)])
    | StackDestroy _ => DestroyResult (VDict [("delete", VInt 3)])
    | _ => NoneResult
    end;
  int_of_str := fun _ => None;
  repr_container := fun _ => "";
  SCRIPT_DIR := "/opt/agp";
|}.

(** Environments [dev] and [prod] of project [acme], one global index. *)
Definition sample_cfg : value :=
  VDict [
    ("global", VDict [
       ("algoliaApiKeyName", VStr "search-key");
       ("environments", VDict [
          ("dev", VDict [("prefix", VStr "acme"); ("namespace", VStr "search")]);
          ("prod", VDict [("prefix", VStr "acme"); ("namespace", VStr "search")])
        ])
     ]);
    ("algoliaIndexes", VList [VStr "products"]);
    ("algoliaApiKeys", VList [
       VDict [("name", VStr "reader"); ("acls", VList [VStr "search"])]
     ])
  ].

Definition sample_secret_entries : list (string * value) :=
  [("search-dev", VDict [("apiKey", VStr "k1"); ("appId", VStr "A1");
                         ("gcpProject", VStr "p-dev")]);
   ("search-prod", VDict [("apiKey", VStr "k2"); ("appId", VStr "A2");
                          ("gcpProject", VStr "p-prod")])].

Definition sample_secrets : value := VDict sample_secret_entries.

Definition sample_manifest : value :=
  VDict [("hosting", VDict [("public", VStr "dist")]);
         ("extensions", VDict [("storage-resize", VStr "firebase/storage-resize-images@0.1.0")])].

Definition sample_args (verb filter : string) : Args := {|
  verb := verb;
  environment := filter;
  config_file := "config.yaml";
  indexes_only := false;
  api_keys_only := false;
  arg_skip_update_extensions := false;
  arg_skip_update_firebase_config := false;
  agp_secrets := "secrets";
  extensions_dir := "extensions";
  firebase_config := "firebase.json";
|}.

Definition sample_world : world := {|
  files := {[ "config.yaml" := Doc sample_cfg;
              "secrets" := Doc sample_secrets;
              "firebase.json" := Doc sample_manifest ]};
  trace := [];
|}.


(** What [get_env_config] returns for [sample_cfg]. *)
Definition sample_env_config : EnvConfig := {|
  cfg_algolia_api_key_name := VStr "search-key";
  cfg_force_data_sync := VStr "no";
  cfg_location := VStr "us-west2";
  cfg_environments :=
    VDict [("dev", VDict [("prefix", VStr "acme"); ("namespace", VStr "search")]);
           ("prod", VDict [("prefix", VStr "acme"); ("namespace", VStr "search")])];
  cfg_algolia_indexes := VList [VStr "products"];
  cfg_algolia_api_keys :=
    VList [VDict [("name", VStr "reader"); ("acls", VList [VStr "search"])]];
  cfg_firebase_search_extension :=
    VStr "algolia/firestore-algolia-search@0.5.13";
|}.

(** [--indexes-only]. *)
Definition indexes_only_args (verb filter : string) : Args := {|
  verb := verb;
  environment := filter;
  config_file := "config.yaml";
  indexes_only := true;
  api_keys_only := false;
  arg_skip_update_extensions := false;
  arg_skip_update_firebase_config := false;
  agp_secrets := "secrets";
  extensions_dir := "extensions";
  firebase_config := "firebase.json";
|}.

Definition is_indexes_stack (stack_name : string) : bool :=
  String.eqb
    (String.substring (String.length stack_name - 8) 8 stack_name) "-indexes".

(** An engine that never fails and finds the indexes unchanged; [up] on
    the other stacks reports a created resource. *)
Definition steady : Externals := {|
  raises := fun _ _ => None;
  returns_value := returns_value calm;
  returns_response := fun w c =>
    match c with
    | StackUp stack_name =>
        if is_indexes_stack stack_name
        then UpResult (VDict [("same", VInt 1)])
        else UpResult (VDict [("same", VInt 2); ("create", VInt 1)])
    | _ => returns_response calm w c
    end;
  int_of_str := fun _ => None;
  repr_container := fun _ => "";
  SCRIPT_DIR := "/opt/agp";
|}.

(** An engine on which no stack can be created or selected. *)
Definition failing : Externals := {|
  raises := fun _ c =>
    match c with
    | CreateOrSelectStack _ _ _ => Some (OtherError "CommandError")
    | _ => None
    end;
  returns_value := returns_value calm;
  returns_response := returns_response calm;
  int_of_str := fun _ => None;
  repr_container := fun _ => "";
  SCRIPT_DIR := "/opt/agp";
|}.

(** An engine beside a script directory it may not change: removing
    [Pulumi.yaml] is refused, and so is creating a stack. *)
Definition locked_directory : Externals := {|
  raises := fun _ c =>
    match c with
    | CreateOrSelectStack _ _ _ => Some (OtherError "CommandError")
    | Unlink _ => Some (OtherError "PermissionError")
    | _ => None
    end;
  returns_value := returns_value calm;
  returns_response := returns_response calm;
  int_of_str := fun _ => None;
  repr_container := fun _ => "";
  SCRIPT_DIR := "/opt/agp";
|}.

(** A YAML library that finds [config.yaml] malformed and an impossible
    date in [dates.yaml]; [yaml.safe_load] raises [ValueError] for the
    latter, which is no [yaml.YAMLError]. *)
Definition picky : Externals := {|
  raises := fun _ c =>
    match c with
    | YamlSafeLoad path =>
        if String.eqb path "config.yaml" then Some YAMLError
        else if String.eqb path "dates.yaml" then Some ValueError
        else None
    | _ => None
    end;
  returns_value := returns_value calm;
  returns_response := returns_response calm;
  int_of_str := fun _ => None;
  repr_container := fun _ => "";
  SCRIPT_DIR := "/opt/agp";
|}.

Definition world_without_manifest : world := {|
  files := {[ "config.yaml" := Doc sample_cfg;
              "secrets" := Doc sample_secrets ]};
  trace := [];
|}.

Definition world_with_broken_manifest : world := {|
  files := {[ "config.yaml" := Doc sample_cfg;
              "secrets" := Doc sample_secrets;
              "firebase.json" := Raw "{" ]};
  trace := [];
|}.

(** The stacks of a trace, in the order they were created or selected,
    and the stacks that were previewed. *)
Definition stacks (t : list event) : list string :=
  flat_map (fun ev =>
    match ev with
    | ECall (CreateOrSelectStack stack_name _ _) => [stack_name]
    | _ => []
    end) t.

Definition previews (t : list event) : list string :=
  flat_map (fun ev =>
    match ev with
    | ECall (StackPreview stack_name) => [stack_name]
    | _ => []
    end) t.

(** ** The secrets program *)

(** [s.removeprefix(p)]. *)
Fixpoint str_drop (n : nat) (s : string) : string :=
  match n, s with
  | S k, String _ s' => str_drop k s'
  | _, _ => s
  end.

Definition str_removeprefix (p s : string) : string :=
  if String.prefix p s then str_drop (String.length p) s else s.

(** [seq[i]] for an integer [i]: negative indices count from the end. *)
Definition index_in_range (i len : Z) : option nat :=
  let j := if Z.ltb i 0 then i + len else i in
  if Z.leb 0 j && Z.ltb j len then Some (Z.to_nat j) else None.

(** [d[key]] for any key. *)
Definition py_subscript (d key : value) : result value :=
  match d with
  | VDict m =>
      match key with
      | VStr k =>
          match dict_lookup k m with Some v => Ret v | None => Raise KeyError end
      | VList _ | VDict _ => Raise TypeError
      | _ => Raise KeyError
      end
  | VList l =>
      match num_of key with
      | Some i =>
          match index_in_range i (Z.of_nat (length l)) with
          | Some j =>
              match nth_error l j with
              | Some v => Ret v
              | None => Raise (OtherError "IndexError")
              end
          | None => Raise (OtherError "IndexError")
          end
      | None => Raise TypeError
      end
  | VStr s =>
      match num_of key with
      | Some i =>
          match index_in_range i (str_len s) with
          | Some j =>
              match String.get j s with
              | Some c => Ret (VStr (String c EmptyString))
              | None => Raise (OtherError "IndexError")
              end
          | None => Raise (OtherError "IndexError")
          end
      | None => Raise TypeError
      end
  | _ => Raise TypeError
  end.

(** What the secrets program declares: [sm.Secret] with its resource
    name, [secret_id] and ["created-by"] label, and [sm.SecretVersion]
    with its resource name, the secret it belongs to and its data. *)
Inductive declared_secret : Type :=
| DeclSecret (resource_name secret_id created_by : string)
| DeclSecretVersion (resource_name secret_resource : string)
    (secret_data : value).

(** The body of the loop of [create_or_update_gcp_secret]. *)
Definition gcp_secret_resources (username : string) (secrets k : value)
  : result (list declared_secret) :=
  secret_data ← py_subscript secrets k;
  name ← match k with
         | VStr key => Ret (str_removeprefix "algolia-api-key-" key)
         | _ => Raise AttributeError
         end;
  mret [DeclSecret ("secret-" ++ name)
          ("lester-test-algolia-secret-" ++ name) username;
        DeclSecretVersion ("secret-version-" ++ name) ("secret-" ++ name)
          secret_data].

Fixpoint gcp_secret_loop (username : string) (secrets : value)
    (ks : list value) : result (list declared_secret) :=
  match ks with
  | [] => mret []
  | k :: rest =>
      ds ← gcp_secret_resources username secrets k;
      ds' ← gcp_secret_loop username secrets rest;
      mret (ds ++ ds')%list
  end.

Definition create_or_update_gcp_secret (username : string) (secrets : value)
  : result (list declared_secret) :=
  ks ← py_iter secrets;
  gcp_secret_loop username secrets ks.

(** ** Vocabulary for the properties *)

(** No character of [s] is [c]. *)
Fixpoint char_free (c : ascii) (s : string) : bool :=
  match s with
  | EmptyString => true
  | String x s' => negb (Ascii.eqb x c) && char_free c s'
  end.


(** The command line [args] with other values of [--indexes-only] and
    [--api-keys-only]. *)
Definition with_only_flags (args : Args) (indexes api_keys : bool) : Args := {|
  verb := verb args;
  environment := environment args;
  config_file := config_file args;
  indexes_only := indexes;
  api_keys_only := api_keys;
  arg_skip_update_extensions := arg_skip_update_extensions args;
  arg_skip_update_firebase_config := arg_skip_update_firebase_config args;
  agp_secrets := agp_secrets args;
  extensions_dir := extensions_dir args;
  firebase_config := firebase_config args;
|}.

(** A computation that leaves every file outside [allowed] as it found
    it, however it ends. *)
Definition only_writes {A : Type} (allowed : string -> Prop) (m : M A) : Prop :=
  forall w path, ~ allowed path -> files (snd (m w)) !! path = files w !! path.

(** The two files the script may write or remove. *)
Definition managed_file (E : Externals) (args : Args) (path : string) : Prop :=
  path = pulumi_file E \/ path = firebase_config args.

(** ** Proof automation *)

(** Unfolds the monad, and nothing of the finite maps behind [files]. *)
Ltac run_script :=
  repeat (progress (unfold mbind, mret, M_bind, M_ret, result_bind,
                      result_ret, lift, raise, exit, logging, emit;
                    cbv beta iota)).

(** * Properties *)

(** ** Strings and lists *)

Lemma split_go_cons sep skip c s :
  split_go sep skip (String c s) =
  match skip with
  | S k => split_go sep k s
  | O =>
      if String.prefix sep (String c s)
      then EmptyString :: split_go sep (String.length sep - 1) s
      else match split_go sep 0 s with
           | p :: ps => String c p :: ps
           | [] => [String c EmptyString]
           end
  end.
Proof. reflexivity. Qed.

Lemma split_go_nonempty sep skip s : split_go sep skip s <> [].
Proof.
  revert skip. induction s as [|c s IH]; intros skip; [done|].
  rewrite split_go_cons.
  destruct skip as [|k]; [|apply IH].
  destruct (String.prefix sep (String c s)); [done|].
  destruct (split_go sep 0 s); done.
Qed.

(** A one-character separator matches at a character equal to it. *)
Lemma prefix_char a c s :
  String.prefix (String a EmptyString) (String c s) = Ascii.eqb c a.
Proof.
  simpl. destruct (ascii_dec a c) as [->|Hne].
  - rewrite Ascii.eqb_refl. by destruct s.
  - symmetry. apply Ascii.eqb_neq. congruence.
Qed.

(** A split on [","] that yields one piece had nothing to split. *)
Lemma split_comma_single s t : str_split "," s = [t] -> s = t.
Proof.
  unfold str_split. revert t. induction s as [|c s IH]; intros t.
  - intros [= <-]. reflexivity.
  - rewrite split_go_cons, prefix_char.
    destruct (Ascii.eqb c ","%char).
    + intros [= _ H]. exfalso. revert H. apply split_go_nonempty.
    + destruct (split_go "," 0 s) as [|p ps] eqn:Hs.
      * exfalso. revert Hs. apply split_go_nonempty.
      * intros [= <- ->]. f_equal. by apply IH.
Qed.

Lemma list_remove_In x l : In x l -> exists rest, list_remove x l = Some rest.
Proof.
  induction l as [|y l IH]; simpl; [intros []|].
  intros H. destruct (String.eqb_spec y x) as [->|Hne]; [eauto|].
  destruct H as [->|H]; [congruence|].
  destruct (IH H) as [rest ->]. eauto.
Qed.

Lemma list_remove_nil x l : list_remove x l = Some [] -> l = [x].
Proof.
  destruct l as [|y l]; simpl; [discriminate|].
  destruct (String.eqb_spec y x) as [->|Hne].
  - intros [= ->]. reflexivity.
  - destruct (list_remove x l); discriminate.
Qed.

(** ** Environment selection *)

Lemma get_environments_to_deploy_nil filter :
  get_environments_to_deploy filter = [] <-> filter = "all".
Proof.
  unfold get_environments_to_deploy. split.
  - destruct (list_remove "all" (str_split "," filter)) as [rest|] eqn:Hr.
    + intros ->. apply list_remove_nil in Hr. by apply split_comma_single.
    + intros H. exfalso. revert H. apply split_go_nonempty.
  - intros ->. reflexivity.
Qed.

Lemma list_remove_count x l rest :
  list_remove x l = Some rest ->
  count_occ string_dec l x = S (count_occ string_dec rest x).
Proof.
  revert rest. induction l as [|y l IH]; intros rest; simpl; [done|].
  destruct (String.eqb_spec y x) as [->|Hne].
  - intros [= ->]. by destruct (string_dec x x).
  - destruct (list_remove x l) as [r|]; [|done].
    intros [= <-]. simpl. destruct (string_dec y x); [done|]. by apply IH.
Qed.

(** C3, as the code has it: from a filter in which the token ["all"]
    occurs once, that token is removed; the remaining tokens are the
    environments of the run, and the configured environments are
    substituted only when no token remains, which happens for the filter
    ["all"] alone. *)
Theorem all_token_is_stripped (filter : string) (envs : value) :
  count_occ string_dec (str_split "," filter) "all" = 1%nat ->
  exists rest,
    list_remove "all" (str_split "," filter) = Some rest /\
    ~ In "all" rest /\
    (rest = [] <-> filter = "all") /\
    selected_environments filter envs =
      if String.eqb filter "all" then py_iter envs else Ret (map VStr rest).
Proof.
  intros Hcount.
  assert (Hin : In "all" (str_split "," filter)).
  { apply (count_occ_In string_dec). rewrite Hcount. lia. }
  destruct (list_remove_In _ _ Hin) as [rest Hrest].
  exists rest. split; [exact Hrest|].
  assert (Hget : get_environments_to_deploy filter = rest).
  { unfold get_environments_to_deploy. by rewrite Hrest. }
  split; [|split].
  - apply (count_occ_not_In string_dec).
    apply list_remove_count in Hrest. rewrite Hcount in Hrest. congruence.
  - rewrite <- Hget. apply get_environments_to_deploy_nil.
  - unfold selected_environments. rewrite Hget.
    destruct (String.eqb_spec filter "all") as [->|Hne].
    + cbv in Hrest. by injection Hrest as <-.
    + destruct rest as [|r rest']; [|reflexivity].
      exfalso. apply Hne. apply get_environments_to_deploy_nil. exact Hget.
Qed.

Lemma all_token_is_stripped_witness :
  count_occ string_dec (str_split "," "dev,all,prod") "all" = 1%nat /\
  exists rest,
    list_remove "all" (str_split "," "dev,all,prod") = Some rest /\
    ~ In "all" rest /\
    (rest = [] <-> "dev,all,prod" = "all") /\
    selected_environments "dev,all,prod" (VDict []) =
      if String.eqb "dev,all,prod" "all" then py_iter (VDict [])
      else Ret (map VStr rest).
Proof.
  split; [reflexivity|].
  exact (all_token_is_stripped "dev,all,prod" (VDict []) eq_refl).
Defined.

(** C3 as stated fails: with environments [dev] and [prod] configured,
    the filter ["all,dev"] contains the token ["all"] and selects [dev]
    alone. *)
Lemma all_with_other_tokens_is_not_everything :
  let envs := VDict [("dev", VDict []); ("prod", VDict [])] in
  In "all" (str_split "," "all,dev") /\
  selected_environments "all,dev" envs = Ret [VStr "dev"] /\
  py_iter envs = Ret [VStr "dev"; VStr "prod"] /\
  selected_environments "all,dev" envs <> py_iter envs.
Proof.
  cbv zeta. split; [vm_compute; tauto|].
  split; [reflexivity|]. split; [reflexivity|].
  vm_compute. intros H. discriminate H.
Qed.

(** ** The stage outcome gate *)

(** What [skip_file_update] computes, case by case. *)
Lemma skip_file_update_not_up resp verb :
  verb <> "up" -> skip_file_update resp verb = true.
Proof.
  intros H. unfold skip_file_update.
  destruct (String.eqb_spec verb "up"); [done|reflexivity].
Qed.

Lemma skip_file_update_up_with_same m unchanged :
  dict_lookup "same" m = Some unchanged ->
  skip_file_update (UpResult (VDict m)) "up"
  = match dict_del "same" m with [] => true | _ => false end.
Proof.
  intros H. unfold skip_file_update. simpl. rewrite H. simpl.
  destruct (dict_del "same" m); reflexivity.
Qed.

Lemma skip_file_update_up_without_same m :
  dict_lookup "same" m = None ->
  skip_file_update (UpResult (VDict m)) "up" = true.
Proof. intros H. unfold skip_file_update. simpl. by rewrite H. Qed.

(** C4 at the summary of a first deployment: one resource created and no
    ["same"] bucket.  Nothing needs removing, the summary is not empty,
    and the function still answers "skip": [del] raises [KeyError] on the
    missing bucket and the bare [except] keeps the default. *)
Theorem skip_file_update_first_deployment :
  let resource_changes := [("create", VInt 1)] in
  dict_lookup "same" resource_changes = None /\
  py_delitem (VDict resource_changes) "same" = Raise KeyError /\
  skip_file_update (UpResult (VDict resource_changes)) "up" = true /\
  skip_file_update (UpResult (VDict (("same", VInt 0) :: resource_changes))) "up"
  = false.
Proof. cbv zeta. repeat split. Qed.

(** ** Configuration defaults *)

(** C9, as the code has it: when [forceDataSync] is unset in the global
    section, the run-level default [get_env_config] returns is the string
    ["no"], and an environment without an override of its own resolves
    to that same string through [.get("forceDataSync", force_data_sync)]. *)
Theorem force_data_sync_default (cm gm : list (string * value)) (w : world) :
  dict_lookup "global" cm = Some (VDict gm) ->
  dict_lookup "forceDataSync" gm = None ->
  exists c,
    get_env_config (VDict cm) w = (Ret c, w) /\
    cfg_force_data_sync c = VStr "no" /\
    forall ec,
      dict_lookup "forceDataSync" ec = None ->
      py_get (VDict ec) "forceDataSync" (cfg_force_data_sync c)
      = Ret (VStr "no").
Proof.
  intros Hg Hf.
  exists {| cfg_algolia_api_key_name :=
              default VNull (dict_lookup "algoliaApiKeyName" gm);
            cfg_force_data_sync := VStr "no";
            cfg_location :=
              default (VStr "us-west2") (dict_lookup "location" gm);
            cfg_environments := default VNull (dict_lookup "environments" gm);
            cfg_algolia_indexes :=
              default VNull (dict_lookup "algoliaIndexes" cm);
            cfg_algolia_api_keys :=
              default VNull (dict_lookup "algoliaApiKeys" cm);
            cfg_firebase_search_extension :=
              default (VStr "algolia/firestore-algolia-search@0.5.13")
                (dict_lookup "searchExtension" gm) |}.
  split; [|split].
  - unfold get_env_config, try_except, lift. simpl. rewrite Hg. simpl.
    rewrite Hf. simpl.
    repeat match goal with
           | |- context [dict_lookup ?k ?m] => destruct (dict_lookup k m)
           end; reflexivity.
  - reflexivity.
  - intros ec Hec. simpl. by rewrite Hec.
Qed.

Lemma force_data_sync_default_witness :
  dict_lookup "global" [("global", VDict [("location", VStr "eu")])]
  = Some (VDict [("location", VStr "eu")]) /\
  dict_lookup "forceDataSync" [("location", VStr "eu")] = None /\
  exists c,
    get_env_config (VDict [("global", VDict [("location", VStr "eu")])])
      sample_world = (Ret c, sample_world) /\
    cfg_force_data_sync c = VStr "no" /\
    forall ec,
      dict_lookup "forceDataSync" ec = None ->
      py_get (VDict ec) "forceDataSync" (cfg_force_data_sync c)
      = Ret (VStr "no").
Proof.
  split; [reflexivity|]. split; [reflexivity|].
  apply (force_data_sync_default
           [("global", VDict [("location", VStr "eu")])]
           [("location", VStr "eu")] sample_world); reflexivity.
Defined.

(** C9 as stated fails: [sample_cfg] sets [forceDataSync] neither in its
    global section nor in environment [dev], and the default is not the
    boolean [False]. *)
Lemma default_force_data_sync_is_a_string :
  (g ← py_get sample_cfg "global" VNull; py_getitem g "forceDataSync")
  = Raise KeyError /\
  (g ← py_get sample_cfg "global" VNull;
   envs ← py_getitem g "environments";
   dev ← py_getitem envs "dev";
   py_getitem dev "forceDataSync")
  = Raise KeyError /\
  match fst (get_env_config sample_cfg sample_world) with
  | Ret c =>
      cfg_force_data_sync c = VStr "no" /\ cfg_force_data_sync c <> VBool false
  | Raise _ => False
  end.
Proof. vm_compute. repeat split. intros H. discriminate H. Qed.

Section ApiKeys.

Variable E : Externals.

(** C8: in the arguments [create_or_update_algolia_api_keys] passes to
    [ApiKey] for a key specification, every optional field that the
    specification leaves unset has its default: 15000 calls, 0 hits per
    query, validity 0, no indexes, no referers, and the description
    ["API Key for " + name]; and with all six unset the resource is
    declared with exactly these arguments. *)
Theorem api_key_defaults (m : list (string * value)) :
  (forall resource_name args,
     api_key_resource E (VDict m) = Ret (resource_name, args) ->
     (dict_lookup "maxApiCall" m = None ->
      max_queries_per_ip_per_hour args = 15000) /\
     (dict_lookup "maxHitsPerQuery" m = None -> max_hits_per_query args = 0) /\
     (dict_lookup "validity" m = None -> validity args = 0) /\
     (dict_lookup "indexes" m = None -> indexes args = VList []) /\
     (dict_lookup "referers" m = None -> referers args = VList []) /\
     (dict_lookup "description" m = None ->
      description args =
        VStr ("API Key for " ++
              py_str E (default VNull (dict_lookup "name" m))))) /\
  (dict_lookup "maxApiCall" m = None ->
   dict_lookup "maxHitsPerQuery" m = None ->
   dict_lookup "validity" m = None ->
   dict_lookup "indexes" m = None ->
   dict_lookup "referers" m = None ->
   dict_lookup "description" m = None ->
   let name := default VNull (dict_lookup "name" m) in
   api_key_resource E (VDict m) =
   Ret ("algolia-api-key-" ++ py_str E name,
        {| acls := default VNull (dict_lookup "acls" m);
           description := VStr ("API Key for " ++ py_str E name);
           indexes := VList [];
           max_hits_per_query := 0;
           max_queries_per_ip_per_hour := 15000;
           referers := VList [];
           validity := 0 |})).
Proof.
  split.
  - intros resource_name args. unfold api_key_resource. simpl.
    destruct (dict_lookup "name" m) as [name|];
    destruct (dict_lookup "acls" m) as [a|];
    destruct (dict_lookup "indexes" m) as [i|];
    destruct (dict_lookup "description" m) as [d|];
    destruct (dict_lookup "maxApiCall" m) as [c|];
    destruct (dict_lookup "maxHitsPerQuery" m) as [h|];
    destruct (dict_lookup "referers" m) as [r|];
    destruct (dict_lookup "validity" m) as [v|]; simpl;
    repeat match goal with
           | |- context [py_int E ?x] => destruct (py_int E x); simpl
           end;
    intros [= <- <-]; simpl; repeat split; intros; congruence.
  - intros H1 H2 H3 H4 H5 H6. unfold api_key_resource. simpl.
    rewrite H1, H2, H3, H4, H5, H6.
    destruct (dict_lookup "name" m), (dict_lookup "acls" m); reflexivity.
Qed.

End ApiKeys.

Lemma api_key_defaults_witness :
  let E := {| raises := fun _ _ => None;
              returns_value := fun _ _ => VNull;
              returns_response := fun _ _ => NoneResult;
              int_of_str := fun _ => Some 7;
              repr_container := fun _ => "";
              SCRIPT_DIR := "" |} in
  let m := [("name", VStr "reader"); ("acls", VList [VStr "search"]);
            ("maxApiCall", VStr "n/a"); ("validity", VInt 60)] in
  let args := {| acls := VList [VStr "search"];
                 description := VStr "API Key for reader";
                 indexes := VList [];
                 max_hits_per_query := 0;
                 max_queries_per_ip_per_hour := 7;
                 referers := VList [];
                 validity := 60 |} in
  api_key_resource E (VDict m) = Ret ("algolia-api-key-reader", args) /\
  dict_lookup "maxHitsPerQuery" m = None /\
  max_hits_per_query args = 0 /\
  api_key_resource E (VDict [("name", VStr "reader")])
  = Ret ("algolia-api-key-reader",
         {| acls := VNull;
            description := VStr "API Key for reader";
            indexes := VList [];
            max_hits_per_query := 0;
            max_queries_per_ip_per_hour := 15000;
            referers := VList [];
            validity := 0 |}).
Proof.
  intros E m args. split; [reflexivity|]. split; [reflexivity|].
  destruct (api_key_defaults E m) as [Hfield _].
  destruct (Hfield "algolia-api-key-reader" args eq_refl) as (_ & H & _).
  split; [apply H; reflexivity|].
  apply (proj2 (api_key_defaults E [("name", VStr "reader")])); reflexivity.
Defined.

(** ** Extension names *)

Lemma str_app_cons x (a b : string) : (String x a ++ b = String x (a ++ b))%string.
Proof. reflexivity. Qed.

Lemma str_app_assoc (a b c : string) : ((a ++ b) ++ c = a ++ (b ++ c))%string.
Proof.
  induction a as [|x a IH]; [reflexivity|].
  rewrite !str_app_cons. by f_equal.
Qed.

Lemma dot_free_app a b : dot_free (a ++ b) = dot_free a && dot_free b.
Proof.
  induction a as [|x a IH]; [reflexivity|].
  rewrite str_app_cons. simpl. by rewrite IH, andb_assoc.
Qed.

Lemma str_replace_dot_free s : dot_free (str_replace "."%char "-"%char s) = true.
Proof.
  induction s as [|c s IH]; simpl; [reflexivity|].
  rewrite IH, andb_true_r.
  destruct (Ascii.eqb_spec c "."%char) as [->|Hc]; [reflexivity|].
  apply negb_true_iff. by apply Ascii.eqb_neq.
Qed.

Lemma str_replace_length old new s :
  String.length (str_replace old new s) = String.length s.
Proof. induction s as [|c s IH]; simpl; [reflexivity|by f_equal]. Qed.

Lemma str_replace_get old new s (i : nat) :
  String.get i (str_replace old new s)
  = (fun c => if Ascii.eqb c old then new else c) <$> String.get i s.
Proof.
  revert i. induction s as [|c s IH]; intros i; simpl; [reflexivity|].
  destruct i as [|i]; [reflexivity|apply IH].
Qed.

Lemma prefix_cons a s1 c s2 :
  String.prefix (String a s1) (String c s2)
  = if ascii_dec a c then String.prefix s1 s2 else false.
Proof. reflexivity. Qed.

Lemma prefix_append (a b : string) : String.prefix a (a ++ b) = true.
Proof.
  induction a as [|x a IH]; [by destruct b|].
  rewrite str_app_cons. simpl. by destruct (ascii_dec x x).
Qed.

(** The first piece of a split on [".env"] is everything before the first
    dot when that dot starts [".env"]. *)
Lemma split_env_head p rest :
  dot_free p = true ->
  exists pieces, str_split ".env" (p ++ ".env" ++ rest) = p :: pieces.
Proof.
  unfold str_split. induction p as [|c p IH]; intros Hp.
  - exists (split_go ".env" 3 ("env" ++ rest)).
    change ("" ++ ".env" ++ rest)%string with (String "."%char ("env" ++ rest)).
    rewrite split_go_cons.
    change (String "."%char ("env" ++ rest)) with (".env" ++ rest)%string.
    by rewrite prefix_append.
  - simpl in Hp. apply andb_true_iff in Hp as [Hc Hp].
    destruct (IH Hp) as [pieces Hpieces].
    rewrite str_app_cons, split_go_cons.
    replace (String.prefix ".env" (String c (p ++ ".env" ++ rest))) with false.
    + rewrite Hpieces. eauto.
    + rewrite prefix_cons. destruct (ascii_dec "."%char c) as [<-|]; [done|reflexivity].
Qed.

Lemma extension_of_file_name (p environment : string) :
  dot_free p = true ->
  extension_of (p ++ ".env." ++ environment) = p.
Proof.
  intros Hp. unfold extension_of.
  destruct (split_env_head p ("." ++ environment) Hp) as [pieces H].
  change (".env." ++ environment)%string
    with (".env" ++ "." ++ environment)%string.
  by rewrite H.
Qed.

(** ** Dicts *)

Lemma dict_lookup_set_eq k v m : dict_lookup k (dict_set k v m) = Some v.
Proof.
  induction m as [|[k' v'] m IH]; simpl.
  - by rewrite String.eqb_refl.
  - destruct (String.eqb_spec k k') as [->|Hne]; simpl.
    + by rewrite String.eqb_refl.
    + destruct (String.eqb_spec k k'); [done|exact IH].
Qed.

Lemma dict_lookup_set_ne k k' v m :
  k' <> k -> dict_lookup k' (dict_set k v m) = dict_lookup k' m.
Proof.
  intros Hne. induction m as [|[k0 v0] m IH]; simpl.
  - destruct (String.eqb_spec k' k); [done|reflexivity].
  - destruct (String.eqb_spec k k0) as [->|Hk]; simpl.
    + destruct (String.eqb_spec k' k0); [done|reflexivity].
    + destruct (String.eqb_spec k' k0); [reflexivity|exact IH].
Qed.

(** Assigning to a key that is present keeps the order of the keys. *)
Lemma dict_keys_set_present k v m old :
  dict_lookup k m = Some old -> dict_keys (dict_set k v m) = dict_keys m.
Proof.
  induction m as [|[k0 v0] m IH]; simpl; [done|].
  destruct (String.eqb_spec k k0) as [->|Hk]; simpl; [done|].
  intros H. f_equal. by apply IH.
Qed.

(** ** Running the script symbolically *)

Lemma open_file_some path c w :
  files w !! path = Some c -> open_file path w = (Ret c, w).
Proof. intros H. unfold open_file. by rewrite H. Qed.

Lemma open_file_none path w :
  files w !! path = None -> open_file path w = (Raise FileNotFoundError, w).
Proof. intros H. unfold open_file. by rewrite H. Qed.

(** ** Credentials *)

(** C6: when the admin-secrets file is a JSON object without the
    environment key, [get_agp_admin_config] returns the triple of empty
    strings; the only effect is the warning it logs, and no exception
    leaves the function. *)
Theorem missing_environment_gives_empty_credentials
    (config_file env : string) (m : list (string * value)) (w : world) :
  files w !! config_file = Some (Doc (VDict m)) ->
  dict_lookup env m = None ->
  get_agp_admin_config config_file env w
  = (Ret (VStr "", VStr "", VStr ""),
     World (files w)
       (trace w ++ [ELog Warning (MsgEnvMissing env config_file)])).
Proof.
  intros Hfile Hkey.
  unfold get_agp_admin_config, try_except, get_config_from_json_file.
  run_script. rewrite (open_file_some _ _ _ Hfile). run_script.
  unfold py_getitem at 1. rewrite Hkey. reflexivity.
Qed.

Lemma missing_environment_gives_empty_credentials_witness :
  files sample_world !! "secrets" = Some (Doc (VDict sample_secret_entries)) /\
  dict_lookup "search-staging" sample_secret_entries = None /\
  get_agp_admin_config "secrets" "search-staging" sample_world
  = (Ret (VStr "", VStr "", VStr ""),
     World (files sample_world)
       (trace sample_world
        ++ [ELog Warning (MsgEnvMissing "search-staging" "secrets")])).
Proof.
  split; [reflexivity|]. split; [reflexivity|].
  apply (missing_environment_gives_empty_credentials
           "secrets" "search-staging" sample_secret_entries sample_world);
    reflexivity.
Defined.

(** ** File synchronisation *)

Section Synchroniser.

Variable E : Externals.

(** C10: when the manifest is a JSON object whose ["extensions"] entry is
    an object and the file can be written, one manifest update rewrites
    the file with the same keys in the same order; every entry other
    than ["extensions"] is as it was loaded, and within ["extensions"]
    the entry of the extension is now the configured version and every
    other entry is as it was loaded.  No other file changes. *)
Theorem manifest_update_frame (u : UpdateDictionary)
    (extension_file_name : string) (cfg exts : list (string * value))
    (w : world) :
  files w !! firebase_config_file u = Some (Doc (VDict cfg)) ->
  dict_lookup "extensions" cfg = Some (VDict exts) ->
  raises E w (OpenForWriting (firebase_config_file u)) = None ->
  exists cfg' exts',
    update_firebase_config E u extension_file_name w
    = (Ret tt,
       World (<[firebase_config_file u := Doc (VDict cfg')]> (files w))
         (trace w ++ [ECall (OpenForWriting (firebase_config_file u))])) /\
    dict_keys cfg' = dict_keys cfg /\
    (forall k, k <> "extensions" -> dict_lookup k cfg' = dict_lookup k cfg) /\
    dict_lookup "extensions" cfg' = Some (VDict exts') /\
    dict_lookup (extension_of extension_file_name) exts'
    = Some (firebase_search_extension u) /\
    (forall k, k <> extension_of extension_file_name ->
               dict_lookup k exts' = dict_lookup k exts).
Proof.
  intros Hfile Hext Hwrite.
  exists (dict_set "extensions"
            (VDict (dict_set (extension_of extension_file_name)
                      (firebase_search_extension u) exts)) cfg),
         (dict_set (extension_of extension_file_name)
            (firebase_search_extension u) exts).
  split; [|split; [|split; [|split; [|split]]]].
  - unfold update_firebase_config, get_config_from_json_file, write_to_file,
      try_except, do_call, set_file.
    run_script. rewrite (open_file_some _ _ _ Hfile). run_script.
    unfold py_get. rewrite Hext. unfold py_setitem. run_script.
    rewrite Hwrite. reflexivity.
  - by apply dict_keys_set_present with (old := VDict exts).
  - intros k Hk. by apply dict_lookup_set_ne.
  - apply dict_lookup_set_eq.
  - apply dict_lookup_set_eq.
  - intros k Hk. by apply dict_lookup_set_ne.
Qed.

End Synchroniser.

Lemma manifest_update_frame_witness :
  let u := {| skip_update_extensions := true;
              skip_update_firebase_config := false;
              ud_environment := VStr "prod";
              environment_config := VDict [];
              algolia_indexes := VList [VStr "products"];
              firebase_search_extension :=
                VStr "algolia/firestore-algolia-search@0.5.13";
              algolia_api_key_name := VStr "search-key";
              admin_app_id := VStr "A2";
              force_data_sync := VStr "no";
              location := VStr "us-west2";
              ud_extensions_dir := "extensions";
              firebase_config_file := "firebase.json" |} in
  exists cfg' exts',
    update_firebase_config calm u "search-products.env.prod" sample_world
    = (Ret tt,
       World (<["firebase.json" := Doc (VDict cfg')]> (files sample_world))
         [ECall (OpenForWriting "firebase.json")]) /\
    dict_keys cfg' = ["hosting"; "extensions"] /\
    dict_lookup "hosting" cfg' = Some (VDict [("public", VStr "dist")]) /\
    dict_lookup "extensions" cfg' = Some (VDict exts') /\
    exts' = [("storage-resize", VStr "firebase/storage-resize-images@0.1.0");
             ("search-products", VStr "algolia/firestore-algolia-search@0.5.13")].
Proof.
  intros u.
  destruct (manifest_update_frame calm u "search-products.env.prod"
              [("hosting", VDict [("public", VStr "dist")]);
               ("extensions",
                VDict [("storage-resize",
                        VStr "firebase/storage-resize-images@0.1.0")])]
              [("storage-resize", VStr "firebase/storage-resize-images@0.1.0")]
              sample_world eq_refl eq_refl eq_refl)
    as (cfg' & exts' & Hrun & Hkeys & Hother & Hexts & Hnew & Hold).
  exists cfg', exts'. split; [exact Hrun|]. split; [exact Hkeys|].
  split; [by rewrite Hother|]. split; [exact Hexts|].
  unfold update_firebase_config in Hrun. vm_compute in Hrun.
  injection Hrun as <-. vm_compute in Hexts. by injection Hexts as <-.
Defined.

(** X28: the names of lines 345 and 372.  For an index name and an
    environment, the extension file name is ["search-"], then the index
    name with every ['.'] turned into ['-'] and every other character
    kept, then [".env."] and the environment; the manifest key is that
    name without the [".env.{environment}"] suffix. *)
Theorem extension_names (index environment : string) :
  let replaced := str_replace "."%char "-"%char index in
  let file_name := ("search-" ++ replaced ++ ".env." ++ environment)%string in
  extension_file_name (VStr index) (VStr environment) = Ret file_name /\
  String.length replaced = String.length index /\
  (forall i : nat,
     String.get i replaced
     = (fun c => if Ascii.eqb c "."%char then "-"%char else c)
         <$> String.get i index) /\
  extension_of file_name = ("search-" ++ replaced)%string.
Proof.
  intros replaced file_name.
  assert (Hname : file_name
                  = (("search-" ++ replaced) ++ ".env." ++ environment)%string).
  { unfold file_name. by rewrite str_app_assoc. }
  split; [|split; [|split]].
  - unfold extension_file_name, py_replace_dots, py_concat.
    run_script. fold replaced. f_equal.
    unfold file_name. by rewrite !str_app_assoc.
  - apply str_replace_length.
  - apply str_replace_get.
  - rewrite Hname. apply extension_of_file_name.
    rewrite dot_free_app. unfold replaced.
    by rewrite str_replace_dot_free.
Qed.

(** C7 at the indexes ["a.b"] and ["c"] in environment [prod].  The
    names are derived as stated: [search-a-b.env.prod] and
    [search-c.env.prod], with manifest keys [search-a-b] and [search-c].
    But the files of these names are never written.  With the extension
    update enabled, building the text of the first file reads the name
    [admin_app_id] (line 352), which is bound nowhere: line 335 unpacked
    the value into [admmin_app_id].  Whatever the engine and the files,
    [create_or_update_cfg_files] raises [NameError] at the first index,
    before any extension file is written and before the manifest is read,
    so neither file and neither manifest key comes to exist.  A run of
    [up prod] that finds changes to deploy ends that way, with the
    manifest as it was.  The two keys reach the manifest only when the
    extension update is skipped, and then no extension file is written
    either. *)
Theorem extension_files_are_never_written :
  let version := VStr "algolia/firestore-algolia-search@0.5.13" in
  let u (skip_extensions : bool) :=
    {| skip_update_extensions := skip_extensions;
       skip_update_firebase_config := false;
       ud_environment := VStr "prod";
       environment_config := VDict [];
       algolia_indexes := VList [VStr "a.b"; VStr "c"];
       firebase_search_extension := version;
       algolia_api_key_name := VStr "search-key";
       admin_app_id := VStr "A2";
       force_data_sync := VStr "no";
       location := VStr "us-west2";
       ud_extensions_dir := "extensions";
       firebase_config_file := "firebase.json" |} in
  let skipped := create_or_update_cfg_files calm (u true) sample_world in
  let up_prod := run calm (sample_args "up" "prod") sample_world in
  map (fun i => extension_file_name i (VStr "prod")) [VStr "a.b"; VStr "c"]
  = [Ret "search-a-b.env.prod"; Ret "search-c.env.prod"] /\
  map extension_of ["search-a-b.env.prod"; "search-c.env.prod"]
  = ["search-a-b"; "search-c"] /\
  (forall (E : Externals) (w : world),
     create_or_update_cfg_files E (u false) w = (Raise NameError, w)) /\
  (fst up_prod = Raise NameError /\
   files (snd up_prod) !! "firebase.json" = Some (Doc sample_manifest) /\
   files (snd up_prod) !! "extensions/search-products.env.prod" = None) /\
  (fst skipped = Ret tt /\
   files (snd skipped) !! "firebase.json"
   = Some (Doc (VDict [
        ("hosting", VDict [("public", VStr "dist")]);
        ("extensions", VDict [
           ("storage-resize", VStr "firebase/storage-resize-images@0.1.0");
           ("search-a-b", version);
           ("search-c", version)])])) /\
   files (snd skipped) !! "extensions/search-a-b.env.prod" = None /\
   files (snd skipped) !! "extensions/search-c.env.prod" = None).
Proof.
  cbv zeta. split; [reflexivity|]. split; [vm_compute; reflexivity|].
  split; [intros E w; reflexivity|].
  split; repeat split; vm_compute; reflexivity.
Qed.

(** ** The stage policy gate *)

Lemma str_len_eq_0 s : Z.eqb (str_len s) 0 = String.eqb s "".
Proof. by destruct s. Qed.

Lemma credentials_incomplete_strings sa sb sc :
  credentials_incomplete (VStr sa) (VStr sb) (VStr sc)
  = Ret (String.eqb sa "" || String.eqb sb "" || String.eqb sc "").
Proof.
  unfold credentials_incomplete, py_len. run_script.
  rewrite !str_len_eq_0.
  by destruct (String.eqb sa ""), (String.eqb sb "").
Qed.

Section Gate.

Variable E : Externals.

(** C5: when any of the three admin credentials is the empty string, the
    gate turns off the index stage and the API-key stage (the secrets
    stage is part of the latter) and sets both file-sync flags to skip;
    the environment is then processed without a single call to the
    engine, without a log entry and without touching a file. *)
Theorem incomplete_credentials_skip_everything
    (args : Args) (c : EnvConfig) (username : string) (env env_conf : value)
    (project_name : string) (admin_api_key admin_app_id gcp_project : string) :
  admin_api_key = "" \/ admin_app_id = "" \/ gcp_project = "" ->
  stage_flags args (VStr admin_api_key) (VStr admin_app_id) (VStr gcp_project)
  = Ret {| deploy_indexes := false;
           deploy_api_keys := false;
           flag_skip_update_extensions := true;
           flag_skip_update_firebase_config := true |} /\
  forall w,
    (exists u,
       stages E args c username env env_conf project_name
         (VStr admin_api_key) (VStr admin_app_id) (VStr gcp_project) w
       = (Ret u, w) /\
       skip_update_extensions u = true /\
       skip_update_firebase_config u = true) /\
    provision E args c username env env_conf project_name
      (VStr admin_api_key) (VStr admin_app_id) (VStr gcp_project) w
    = (Ret tt, w).
Proof.
  intros Hempty.
  assert (Hflags :
    stage_flags args (VStr admin_api_key) (VStr admin_app_id) (VStr gcp_project)
    = Ret {| deploy_indexes := false;
             deploy_api_keys := false;
             flag_skip_update_extensions := true;
             flag_skip_update_firebase_config := true |}).
  { unfold stage_flags. rewrite credentials_incomplete_strings. run_script.
    replace (String.eqb admin_api_key "" || String.eqb admin_app_id ""
             || String.eqb gcp_project "") with true; [reflexivity|].
    destruct Hempty as [-> | [-> | ->]]; simpl;
      by rewrite ?orb_true_r. }
  split; [exact Hflags|]. intros w.
  assert (Hstages : forall w0,
    stages E args c username env env_conf project_name
      (VStr admin_api_key) (VStr admin_app_id) (VStr gcp_project) w0
    = (Ret {| skip_update_extensions := true;
              skip_update_firebase_config := true;
              ud_environment := env;
              environment_config := env_conf;
              algolia_indexes := VList [];
              firebase_search_extension := cfg_firebase_search_extension c;
              algolia_api_key_name := cfg_algolia_api_key_name c;
              admin_app_id := VStr admin_app_id;
              force_data_sync := cfg_force_data_sync c;
              location := cfg_location c;
              ud_extensions_dir := extensions_dir args;
              firebase_config_file := firebase_config args |}, w0)).
  { intros w0. unfold stages. rewrite Hflags. reflexivity. }
  split.
  - eexists. split; [apply Hstages|]. split; reflexivity.
  - unfold provision. run_script. rewrite Hstages. reflexivity.
Qed.

End Gate.

Lemma incomplete_credentials_skip_everything_witness :
  ("k1" = "" \/ "" = "" \/ "p-dev" = "") /\
  provision calm (sample_args "up" "dev") 
    {| cfg_algolia_api_key_name := VStr "search-key";
       cfg_force_data_sync := VStr "no";
       cfg_location := VStr "us-west2";
       cfg_environments := VDict [];
       cfg_algolia_indexes := VList [VStr "products"];
       cfg_algolia_api_keys := VList [];
       cfg_firebase_search_extension := VStr "x@1" |}
    "ops" (VStr "dev") (VDict []) "acme--search-dev"
    (VStr "k1") (VStr "") (VStr "p-dev") sample_world
  = (Ret tt, sample_world).
Proof.
  assert (H : "k1" = "" \/ "" = "" \/ "p-dev" = "") by (right; left; reflexivity).
  split; [exact H|].
  apply (incomplete_credentials_skip_everything calm (sample_args "up" "dev")
           _ "ops" (VStr "dev") (VDict []) "acme--search-dev" "k1" "" "p-dev" H).
Defined.

(** ** Preview *)

(** C1 at [preview dev] and at [preview --indexes-only dev,prod], on an
    engine that never fails.  The [exit(0)] that follows the preview of
    the index stack is a [SystemExit] raised inside the index stage, whose
    bare [except:] catches it: the API-key stack of the environment is
    set up and previewed next, and the process ends only there (the
    [finally] of that stage removes [Pulumi.yaml] on the way out).  With
    [--indexes-only] nothing ends the run: the manifest is rewritten, the
    next environment is previewed too, and [run] returns. *)
Theorem preview_of_index_stack_does_not_exit :
  run calm (sample_args "preview" "dev") sample_world
  = (Raise (SystemExit 0),
     World (files sample_world)
       [ECall GcloudInfo;
        ECall (CreateOrSelectStack "acme--search-dev-indexes"
                 "acme--search-dev" (ProgIndexes (VList [VStr "products"])));
        ECall (SetConfig "acme--search-dev-indexes" "algolia:apiKey"
                 (VStr "k1") true);
        ECall (SetConfig "acme--search-dev-indexes" "algolia:applicationId"
                 (VStr "A1") false);
        ECall (StackPreview "acme--search-dev-indexes");
        ELog Info (MsgPreview (PreviewResult "" "" (VDict [])));
        ECall (CreateOrSelectStack "acme--search-dev-api-keys"
                 "acme--search-dev"
                 (ProgApiKeys
                    (VList [VDict [("name", VStr "reader");
                                   ("acls", VList [VStr "search"])]])));
        ECall (SetConfig "acme--search-dev-api-keys" "algolia:apiKey"
                 (VStr "k1") true);
        ECall (SetConfig "acme--search-dev-api-keys" "algolia:applicationId"
                 (VStr "A1") false);
        ECall (StackPreview "acme--search-dev-api-keys");
        ELog Info (MsgPreview (PreviewResult "" "" (VDict [])));
        ECall (Unlink "/opt/agp/Pulumi.yaml")]) /\
  fst (run calm (indexes_only_args "preview" "dev,prod") sample_world)
  = Ret tt /\
  previews
    (trace (snd (run calm (indexes_only_args "preview" "dev,prod")
                   sample_world)))
  = ["acme--search-dev-indexes"; "acme--search-prod-indexes"] /\
  files (snd (run calm (indexes_only_args "preview" "dev,prod") sample_world))
    !! "firebase.json"
  <> files sample_world !! "firebase.json".
Proof.
  split; [vm_compute; reflexivity|].
  split; [vm_compute; reflexivity|].
  split; [vm_compute; reflexivity|].
  vm_compute. intros H. discriminate H.
Qed.

(** ** Containment of stage failures *)

Lemma for_each_cons {A : Type} (x : A) (rest : list A) (body : A -> M unit) w :
  for_each (x :: rest) body w
  = match body x w with
    | (Ret _, w') => for_each rest body w'
    | (Raise e, w') => (Raise e, w')
    end.
Proof. reflexivity. Qed.

Section Containment.

Variable E : Externals.
Variables (args : Args) (c : EnvConfig) (username : string).
Variables (env env_conf : value) (project_name : string).
Variables (admin_api_key admin_app_id gcp_project : value).

(** The index stage, once its list of indexes is built: whatever the
    guarded block raises, the stage returns. *)
Lemma indexes_stage_eq env_indexes algolia_indexes w :
  py_get env_conf "algoliaIndexes" (VList []) = Ret env_indexes ->
  py_add (cfg_algolia_indexes c) env_indexes = Ret algolia_indexes ->
  indexes_stage E args c env_conf project_name admin_api_key admin_app_id w
  = match indexes_try E args project_name admin_api_key admin_app_id
            algolia_indexes w with
    | (Ret skip, w') => (Ret (skip, algolia_indexes), w')
    | (Raise _, w') => (Ret (true, algolia_indexes), w')
    end.
Proof.
  intros Hget Hadd. unfold indexes_stage, try_except. run_script.
  rewrite Hget, Hadd.
  by destruct (indexes_try E args project_name admin_api_key admin_app_id
                 algolia_indexes w) as [[skip|e] w'].
Qed.

(** The API-key stage, once its list of keys is built: an [Exception]
    from the guarded block is logged and the outcome is "skip"; a process
    exit goes through; the [finally] then removes [Pulumi.yaml], and a
    failure to do so replaces the outcome. *)
Lemma api_keys_stage_eq env_api_keys algolia_api_keys w :
  py_get env_conf "algoliaApiKeys" (VList []) = Ret env_api_keys ->
  py_add (cfg_algolia_api_keys c) env_api_keys = Ret algolia_api_keys ->
  api_keys_stage E args c env_conf username project_name
    admin_api_key admin_app_id gcp_project w
  = match api_keys_try E args username project_name admin_api_key
            admin_app_id gcp_project algolia_api_keys w with
    | (Ret skip, w') =>
        try_finally (lift (Ret skip)) (unlink E (pulumi_file E)) w'
    | (Raise e, w') =>
        if is_Exception e
        then try_finally (lift (Ret true)) (unlink E (pulumi_file E))
               (World (files w') (trace w' ++ [ELog Error (MsgException e)]))
        else try_finally (lift (Raise e)) (unlink E (pulumi_file E)) w'
    end.
Proof.
  intros Hget Hadd. unfold api_keys_stage. run_script. rewrite Hget, Hadd.
  unfold try_finally at 1. unfold try_except.
  destruct (api_keys_try E args username project_name admin_api_key
              admin_app_id gcp_project algolia_api_keys w) as [[skip|e] w'];
    [reflexivity|].
  by destruct (is_Exception e).
Qed.

Lemma deploy_environment_eq env_prefix env_ns w w0 :
  py_get_key (cfg_environments c) env = Ret env_conf ->
  py_get env_conf "prefix" VNull = Ret env_prefix ->
  py_get env_conf "namespace" VNull = Ret env_ns ->
  get_agp_admin_config (agp_secrets args)
    (py_str E env_ns ++ "-" ++ py_str E env) w
  = (Ret (admin_api_key, admin_app_id, gcp_project), w0) ->
  project_name
  = (py_str E env_prefix ++ "--" ++ py_str E env_ns ++ "-" ++ py_str E env)%string ->
  deploy_environment E args c username env w
  = provision E args c username env env_conf project_name
      admin_api_key admin_app_id gcp_project w0.
Proof.
  intros Henv Hprefix Hns Hcreds ->. unfold deploy_environment. run_script.
  rewrite Henv, Hprefix, Hns, Hcreds. reflexivity.
Qed.

(** C2, as the code has it.  Take an environment that is configured
    and whose credentials are read, with well-formed index and key
    lists.  An exception raised in the guarded block of the index stage
    does not abort the environment: the stage ends with its file-sync
    flag at skip, and the guarded block of the API-key and secrets stage
    is run next, in the world the index stage left, exactly as after an
    index stage that returned.  An [Exception] raised in that block is
    logged and sets the other flag to skip.  The file synchronisation of
    the environment is then run with these flags, and the loop goes on to
    the remaining environments when it returns.  What does end the run:
    a process exit raised in the API-key block, a failure to remove
    [Pulumi.yaml] in its [finally], and an exception raised by the file
    synchronisation itself. *)
Theorem stage_failures_do_not_end_the_run
    (ec : list (string * value)) (fl : StageFlags)
    (algolia_indexes algolia_api_keys : value)
    (rest : list value) (w w0 : world) :
  env_conf = VDict ec ->
  py_get_key (cfg_environments c) env = Ret env_conf ->
  project_name
  = (py_str E (default VNull (dict_lookup "prefix" ec)) ++ "--" ++
     py_str E (default VNull (dict_lookup "namespace" ec)) ++ "-" ++
     py_str E env)%string ->
  get_agp_admin_config (agp_secrets args)
    (py_str E (default VNull (dict_lookup "namespace" ec)) ++ "-" ++
     py_str E env) w
  = (Ret (admin_api_key, admin_app_id, gcp_project), w0) ->
  stage_flags args admin_api_key admin_app_id gcp_project = Ret fl ->
  py_add (cfg_algolia_indexes c)
    (default (VList []) (dict_lookup "algoliaIndexes" ec))
  = Ret algolia_indexes ->
  py_add (cfg_algolia_api_keys c)
    (default (VList []) (dict_lookup "algoliaApiKeys" ec))
  = Ret algolia_api_keys ->
  let loop := for_each (env :: rest) (deploy_environment E args c username) in
  let cleanup (outcome : result bool) : M bool :=
    try_finally (lift outcome) (unlink E (pulumi_file E)) in
  let index_outcome : bool * world :=
    if deploy_indexes fl
    then match indexes_try E args project_name admin_api_key admin_app_id
                 algolia_indexes w0 with
         | (Ret skip, w') => (skip, w')
         | (Raise _, w') => (true, w')
         end
    else (flag_skip_update_extensions fl, w0) in
  let api_outcome : result bool * world :=
    if deploy_api_keys fl
    then match api_keys_try E args username project_name admin_api_key
                 admin_app_id gcp_project algolia_api_keys
                 (snd index_outcome) with
         | (Ret skip, w') => cleanup (Ret skip) w'
         | (Raise e, w') =>
             if is_Exception e
             then cleanup (Ret true)
                    (World (files w')
                       (trace w' ++ [ELog Error (MsgException e)]))
             else cleanup (Raise e) w'
         end
    else (Ret (flag_skip_update_firebase_config fl), snd index_outcome) in
  let update_dictionary (skip_fb : bool) : UpdateDictionary :=
    Build_UpdateDictionary
      (fst index_outcome) skip_fb env env_conf
      (if deploy_indexes fl then algolia_indexes else VList [])
      (cfg_firebase_search_extension c) (cfg_algolia_api_key_name c)
      admin_app_id (cfg_force_data_sync c) (cfg_location c)
      (extensions_dir args) (firebase_config args) in
  stages E args c username env env_conf project_name
    admin_api_key admin_app_id gcp_project w0
  = match api_outcome with
    | (Ret skip_fb, w2) => (Ret (update_dictionary skip_fb), w2)
    | (Raise e, w2) => (Raise e, w2)
    end /\
  loop w
  = match api_outcome with
    | (Ret skip_fb, w2) =>
        match create_or_update_cfg_files E (update_dictionary skip_fb) w2 with
        | (Ret _, w3) =>
            for_each rest (deploy_environment E args c username) w3
        | (Raise e, w3) => (Raise e, w3)
        end
    | (Raise e, w2) => (Raise e, w2)
    end.
Proof.
  intros Hconf Henv Hproject Hcreds Hfl Hidx Hkeys
    loop cleanup index_outcome api_outcome update_dictionary.
  assert (Hget : forall k d,
            py_get env_conf k d = Ret (default d (dict_lookup k ec))).
  { intros k d. rewrite Hconf. simpl. by destruct (dict_lookup k ec). }
  assert (Hstages :
    stages E args c username env env_conf project_name
      admin_api_key admin_app_id gcp_project w0
    = match api_outcome with
      | (Ret skip_fb, w2) => (Ret (update_dictionary skip_fb), w2)
      | (Raise e, w2) => (Raise e, w2)
      end).
  { subst api_outcome update_dictionary index_outcome cleanup.
    unfold stages. run_script. rewrite Hfl.
    destruct (deploy_indexes fl) eqn:Hdi.
    - rewrite (indexes_stage_eq _ _ _ (Hget _ _) Hidx).
      destruct (indexes_try E args project_name admin_api_key admin_app_id
                  algolia_indexes w0) as [[skip_ext|e1] wi]; cbn [fst snd];
        (destruct (deploy_api_keys fl) eqn:Hdk; [|reflexivity]);
        rewrite (api_keys_stage_eq _ _ _ (Hget _ _) Hkeys);
        (destruct (api_keys_try E args username project_name admin_api_key
                     admin_app_id gcp_project algolia_api_keys wi)
           as [[skip_fb|e2] wk]; [|destruct (is_Exception e2)]);
        unfold lift;
        match goal with
        | |- context [try_finally ?m ?f ?x] =>
            by destruct (try_finally m f x) as [[?|?] ?]
        end.
    - cbn [fst snd].
      destruct (deploy_api_keys fl) eqn:Hdk; [|reflexivity].
      rewrite (api_keys_stage_eq _ _ _ (Hget _ _) Hkeys).
      (destruct (api_keys_try E args username project_name admin_api_key
                   admin_app_id gcp_project algolia_api_keys w0)
         as [[skip_fb|e2] wk]; [|destruct (is_Exception e2)]);
        unfold lift;
        match goal with
        | |- context [try_finally ?m ?f ?x] =>
            by destruct (try_finally m f x) as [[?|?] ?]
        end. }
  split; [exact Hstages|].
  unfold loop. rewrite for_each_cons.
  rewrite (deploy_environment_eq _ _ _ _
             Henv (Hget _ _) (Hget _ _) Hcreds Hproject).
  unfold provision.
  assert (Hbind : forall (m : M UpdateDictionary)
                         (f : UpdateDictionary -> M unit) x,
            (m ≫= f) x
            = match m x with
              | (Ret a, x') => f a x'
              | (Raise e, x') => (Raise e, x')
              end) by reflexivity.
  rewrite Hbind, Hstages.
  by destruct api_outcome as [[skip_fb|e] w2].
Qed.

End Containment.

Lemma stage_failures_do_not_end_the_run_witness :
  let args := sample_args "up" "dev,prod" in
  let ec := [("prefix", VStr "acme"); ("namespace", VStr "search")] in
  let deploy := deploy_environment failing args sample_env_config "ops" in
  let indexes := VList [VStr "products"] in
  let keys := VList [VDict [("name", VStr "reader");
                            ("acls", VList [VStr "search"])]] in
  let cleanup (outcome : result bool) : M bool :=
    try_finally (lift outcome) (unlink failing (pulumi_file failing)) in
  let index_outcome : bool * world :=
    match indexes_try failing args "acme--search-dev" (VStr "k1") (VStr "A1")
            indexes sample_world with
    | (Ret skip, w') => (skip, w')
    | (Raise _, w') => (true, w')
    end in
  let api_outcome : result bool * world :=
    match api_keys_try failing args "ops" "acme--search-dev" (VStr "k1")
            (VStr "A1") (VStr "p-dev") keys (snd index_outcome) with
    | (Ret skip, w') => cleanup (Ret skip) w'
    | (Raise e, w') =>
        if is_Exception e
        then cleanup (Ret true)
               (World (files w') (trace w' ++ [ELog Error (MsgException e)]))
        else cleanup (Raise e) w'
    end in
  let update_dictionary (skip_fb : bool) : UpdateDictionary :=
    {| skip_update_extensions := fst index_outcome;
       skip_update_firebase_config := skip_fb;
       ud_environment := VStr "dev";
       environment_config := VDict ec;
       algolia_indexes := indexes;
       firebase_search_extension :=
         cfg_firebase_search_extension sample_env_config;
       algolia_api_key_name := cfg_algolia_api_key_name sample_env_config;
       admin_app_id := VStr "A1";
       force_data_sync := cfg_force_data_sync sample_env_config;
       location := cfg_location sample_env_config;
       ud_extensions_dir := extensions_dir args;
       firebase_config_file := firebase_config args |} in
  py_get_key (cfg_environments sample_env_config) (VStr "dev") = Ret (VDict ec) /\
  get_agp_admin_config "secrets" "search-dev" sample_world
  = (Ret (VStr "k1", VStr "A1", VStr "p-dev"), sample_world) /\
  fst (indexes_try failing args "acme--search-dev" (VStr "k1") (VStr "A1")
         indexes sample_world)
  = Raise (OtherError "CommandError") /\
  stacks (trace (snd api_outcome))
  = ["acme--search-dev-indexes"; "acme--search-dev-api-keys"] /\
  (stages failing args sample_env_config "ops" (VStr "dev") (VDict ec)
     "acme--search-dev" (VStr "k1") (VStr "A1") (VStr "p-dev") sample_world
   = match api_outcome with
     | (Ret skip_fb, w2) => (Ret (update_dictionary skip_fb), w2)
     | (Raise e, w2) => (Raise e, w2)
     end /\
   for_each [VStr "dev"; VStr "prod"] deploy sample_world
   = match api_outcome with
     | (Ret skip_fb, w2) =>
         match create_or_update_cfg_files failing (update_dictionary skip_fb)
                 w2 with
         | (Ret _, w3) => for_each [VStr "prod"] deploy w3
         | (Raise e, w3) => (Raise e, w3)
         end
     | (Raise e, w2) => (Raise e, w2)
     end) /\
  fst (run failing args sample_world) = Ret tt /\
  stacks (trace (snd (run failing args sample_world)))
  = ["acme--search-dev-indexes"; "acme--search-dev-api-keys";
     "acme--search-prod-indexes"; "acme--search-prod-api-keys"].
Proof.
  intros args ec deploy indexes keys cleanup index_outcome api_outcome
    update_dictionary.
  split; [reflexivity|]. split; [reflexivity|].
  split; [vm_compute; reflexivity|]. split; [vm_compute; reflexivity|].
  split; [|split; vm_compute; reflexivity].
  apply (stage_failures_do_not_end_the_run failing args sample_env_config
           "ops" (VStr "dev") (VDict ec) "acme--search-dev"
           (VStr "k1") (VStr "A1") (VStr "p-dev") ec
           {| deploy_indexes := true;
              deploy_api_keys := true;
              flag_skip_update_extensions := false;
              flag_skip_update_firebase_config := false |}
           indexes keys [VStr "prod"] sample_world sample_world);
    reflexivity.
Defined.

(** C2 as stated fails in the file-sync step.  [up dev,prod] on an
    engine that never fails: the API-key stage of [dev] reports a change,
    so the manifest is to be updated.  When the manifest file is missing,
    [open] raises [FileNotFoundError]; when it is not JSON,
    [get_config_from_json_file] exits with status 1.  Either way the
    run ends in [dev] and no stack of [prod] is ever selected, whereas
    with a well-formed manifest the same run reaches [prod]. *)
Lemma file_sync_failure_ends_the_run :
  let args := sample_args "up" "dev,prod" in
  let dev := ["acme--search-dev-indexes"; "acme--search-dev-api-keys";
              "acme--search-dev-secrets"] in
  let prod := ["acme--search-prod-indexes"; "acme--search-prod-api-keys";
               "acme--search-prod-secrets"] in
  fst (run steady args world_without_manifest) = Raise FileNotFoundError /\
  stacks (trace (snd (run steady args world_without_manifest))) = dev /\
  fst (run steady args world_with_broken_manifest) = Raise (SystemExit 1) /\
  stacks (trace (snd (run steady args world_with_broken_manifest))) = dev /\
  fst (run steady args sample_world) = Ret tt /\
  stacks (trace (snd (run steady args sample_world))) = (dev ++ prod)%list.
Proof. cbv zeta. repeat split; vm_compute; reflexivity. Qed.

(** * Further properties of the script *)

(** ** Which files a computation may change *)

Create HintDb files_frame.

Lemma only_writes_ret {A : Type} allowed (a : A) :
  only_writes allowed (mret a : M A).
Proof. by intros w path _. Qed.

Lemma only_writes_lift {A : Type} allowed (r : result A) :
  only_writes allowed (lift r).
Proof. by intros w path _. Qed.

Lemma only_writes_raise {A : Type} allowed (e : exn) :
  only_writes allowed (raise e : M A).
Proof. by intros w path _. Qed.

Lemma only_writes_exit {A : Type} allowed code :
  only_writes allowed (exit code : M A).
Proof. by intros w path _. Qed.

Lemma only_writes_bind {A B : Type} allowed (m : M A) (f : A -> M B) :
  only_writes allowed m ->
  (forall a, only_writes allowed (f a)) ->
  only_writes allowed (m ≫= f).
Proof.
  intros Hm Hf w path Hp. specialize (Hm w path Hp).
  unfold mbind, M_bind. destruct (m w) as [[a|e] w1]; simpl in *; [|done].
  by rewrite (Hf a w1 path Hp).
Qed.

Lemma only_writes_try_except {A : Type} allowed (body : M A) catches handler :
  only_writes allowed body ->
  (forall e, only_writes allowed (handler e)) ->
  only_writes allowed (try_except body catches handler).
Proof.
  intros Hb Hh w path Hp. specialize (Hb w path Hp). unfold try_except.
  destruct (body w) as [[a|e] w1]; simpl in *; [done|].
  destruct (catches e); [|done]. by rewrite (Hh e w1 path Hp).
Qed.

Lemma only_writes_try_finally {A : Type} allowed (body : M A) cleanup :
  only_writes allowed body ->
  only_writes allowed cleanup ->
  only_writes allowed (try_finally body cleanup).
Proof.
  intros Hb Hc w path Hp. specialize (Hb w path Hp). unfold try_finally.
  destruct (body w) as [r w1]. simpl in Hb. specialize (Hc w1 path Hp).
  destruct (cleanup w1) as [[u|e] w2]; simpl in *; congruence.
Qed.

Lemma only_writes_for_each {A : Type} allowed (xs : list A) body :
  (forall x, only_writes allowed (body x)) ->
  only_writes allowed (for_each xs body).
Proof.
  intros Hb. induction xs as [|x xs IH]; simpl.
  - apply only_writes_ret.
  - apply only_writes_bind; [apply Hb|]. by intros _.
Qed.

Lemma only_writes_logging allowed l m : only_writes allowed (logging l m).
Proof. by intros w path _. Qed.

Lemma only_writes_open_file allowed path : only_writes allowed (open_file path).
Proof. intros w p _. unfold open_file. by destruct (files w !! path). Qed.

Lemma only_writes_set_file (allowed : string -> Prop) path c :
  allowed path -> only_writes allowed (set_file path c).
Proof.
  intros Ha w p Hp. simpl. apply lookup_insert_ne. by intros ->.
Qed.

Lemma only_writes_remove_file (allowed : string -> Prop) path :
  allowed path -> only_writes allowed (remove_file path).
Proof.
  intros Ha w p Hp. simpl. apply lookup_delete_ne. by intros ->.
Qed.

#[export] Hint Resolve only_writes_ret only_writes_lift only_writes_raise
  only_writes_exit only_writes_bind only_writes_try_except
  only_writes_try_finally only_writes_for_each only_writes_logging
  only_writes_open_file only_writes_set_file only_writes_remove_file
  : files_frame.

Section Frame.

Variable E : Externals.
Variable allowed : string -> Prop.

Lemma only_writes_do_call c : only_writes allowed (do_call E c).
Proof. intros w p _. unfold do_call. by destruct (raises E w c). Qed.

Lemma only_writes_call_value c : only_writes allowed (call_value E c).
Proof.
  intros w p _. unfold call_value, do_call. by destruct (raises E w c).
Qed.

Lemma only_writes_call_response c : only_writes allowed (call_response E c).
Proof.
  intros w p _. unfold call_response, do_call. by destruct (raises E w c).
Qed.

Lemma only_writes_consult c : only_writes allowed (consult E c).
Proof. intros w p _. unfold consult. by destruct (raises E w c). Qed.

Hint Resolve only_writes_do_call only_writes_call_value
  only_writes_call_response only_writes_consult : files_frame.

Lemma only_writes_unlink path :
  allowed path -> only_writes allowed (unlink E path).
Proof. intros Ha. unfold unlink. eauto 10 with files_frame. Qed.

Lemma only_writes_write_to_file filename data :
  allowed filename -> only_writes allowed (write_to_file E filename data).
Proof. intros Ha. unfold write_to_file. eauto 10 with files_frame. Qed.

Lemma only_writes_get_config_from_json_file config_file :
  only_writes allowed (get_config_from_json_file config_file).
Proof.
  unfold get_config_from_json_file.
  apply only_writes_bind; [auto with files_frame|].
  intros [v|text]; eauto 10 with files_frame.
Qed.

Lemma only_writes_get_config_from_yaml_file config_file :
  only_writes allowed (get_config_from_yaml_file E config_file).
Proof.
  unfold get_config_from_yaml_file. eauto 10 with files_frame.
Qed.

Lemma only_writes_execute_pulumi_verb stack_name verb :
  only_writes allowed (execute_pulumi_verb E stack_name verb).
Proof.
  unfold execute_pulumi_verb.
  destruct (String.eqb verb "preview"); [eauto 10 with files_frame|].
  destruct (String.eqb verb "rm" || String.eqb verb "rm-stack").
  - apply only_writes_bind; [auto with files_frame|]. intros _.
    apply only_writes_bind; [auto with files_frame|]. intros resp.
    destruct (String.eqb verb "rm-stack"); eauto 10 with files_frame.
  - destruct (String.eqb verb "up"); eauto 10 with files_frame.
Qed.

Lemma only_writes_get_env_config cfg : only_writes allowed (get_env_config cfg).
Proof. unfold get_env_config. eauto 10 with files_frame. Qed.

Lemma only_writes_get_agp_admin_config config_file env :
  only_writes allowed (get_agp_admin_config config_file env).
Proof.
  unfold get_agp_admin_config.
  apply only_writes_try_except.
  - apply only_writes_bind;
      [apply only_writes_get_config_from_json_file|].
    intros cfg. eauto 10 with files_frame.
  - intros e. destruct (is_KeyError e); eauto 10 with files_frame.
Qed.

End Frame.

Lemma only_writes_bind_returned {A B : Type} allowed (m : M A) (f : A -> M B) :
  only_writes allowed m ->
  (forall w a w', m w = (Ret a, w') -> only_writes allowed (f a)) ->
  only_writes allowed (m ≫= f).
Proof.
  intros Hm Hf w path Hp. specialize (Hm w path Hp).
  unfold mbind, M_bind. destruct (m w) as [[a|e] w1] eqn:Hmw; simpl in *;
    [|done].
  by rewrite (Hf w a w1 Hmw w1 path Hp).
Qed.

Section RunFrame.

Variable E : Externals.
Variable args : Args.

Local Abbreviation managed := (managed_file E args).

Hint Resolve only_writes_do_call only_writes_call_value
  only_writes_call_response only_writes_unlink only_writes_write_to_file
  only_writes_get_config_from_json_file only_writes_get_config_from_yaml_file
  only_writes_execute_pulumi_verb only_writes_get_env_config
  only_writes_get_agp_admin_config : files_frame.

Lemma managed_pulumi_file : managed (pulumi_file E).
Proof. by left. Qed.

Lemma managed_firebase_config : managed (firebase_config args).
Proof. by right. Qed.

Hint Resolve managed_pulumi_file managed_firebase_config : files_frame.

Lemma only_writes_get_secret_values project_name stack_name :
  only_writes managed (get_secret_values E project_name stack_name).
Proof.
  unfold get_secret_values, create_pulumi_file. eauto 10 with files_frame.
Qed.

Lemma only_writes_indexes_stage c env_conf project_name k a :
  only_writes managed (indexes_stage E args c env_conf project_name k a).
Proof. unfold indexes_stage, indexes_try. eauto 20 with files_frame. Qed.

Lemma only_writes_api_keys_stage c env_conf username project_name k a g :
  only_writes managed
    (api_keys_stage E args c env_conf username project_name k a g).
Proof.
  pose proof only_writes_get_secret_values.
  unfold api_keys_stage, api_keys_try. eauto 30 with files_frame.
Qed.

Lemma only_writes_create_or_update_cfg_files u :
  firebase_config_file u = firebase_config args ->
  only_writes managed (create_or_update_cfg_files E u).
Proof.
  intros Hu. unfold create_or_update_cfg_files.
  apply only_writes_bind; [auto with files_frame|]. intros idxs.
  apply only_writes_for_each. intros index. unfold cfg_files_body.
  apply only_writes_bind; [auto with files_frame|]. intros name.
  apply only_writes_bind.
  - destruct (negb (skip_update_extensions u)); [|auto with files_frame].
    unfold update_extension_file. eauto 10 with files_frame.
  - intros _. destruct (negb (skip_update_firebase_config u));
      [|auto with files_frame].
    unfold update_firebase_config. rewrite Hu. eauto 20 with files_frame.
Qed.

Lemma stages_firebase_config_file c username env env_conf project_name k a g
    w u w' :
  stages E args c username env env_conf project_name k a g w = (Ret u, w') ->
  firebase_config_file u = firebase_config args.
Proof.
  unfold stages. run_script.
  destruct (stage_flags args k a g) as [fl|e]; [|done].
  destruct ((if deploy_indexes fl
             then indexes_stage E args c env_conf project_name k a
             else fun w0 => (Ret (flag_skip_update_extensions fl, VList []), w0))
              w) as [[[skip idxs]|e] w1]; [|done].
  destruct ((if deploy_api_keys fl
             then api_keys_stage E args c env_conf username project_name k a g
             else fun w0 => (Ret (flag_skip_update_firebase_config fl), w0))
              w1) as [[skip'|e] w2]; [|done].
  by intros [= <- _].
Qed.

Lemma only_writes_stages c username env env_conf project_name k a g :
  only_writes managed
    (stages E args c username env env_conf project_name k a g).
Proof.
  pose proof only_writes_indexes_stage.
  pose proof only_writes_api_keys_stage.
  unfold stages.
  apply only_writes_bind; [auto with files_frame|]. intros fl.
  apply only_writes_bind.
  { destruct (deploy_indexes fl); auto with files_frame. }
  intros [skip idxs].
  apply only_writes_bind; [|auto with files_frame].
  destruct (deploy_api_keys fl); auto with files_frame.
Qed.

Lemma only_writes_deploy_environment c username env :
  only_writes managed (deploy_environment E args c username env).
Proof.
  unfold deploy_environment.
  apply only_writes_bind; [auto with files_frame|]. intros env_conf.
  apply only_writes_bind; [auto with files_frame|]. intros env_prefix.
  apply only_writes_bind; [auto with files_frame|]. intros env_ns.
  apply only_writes_bind; [auto with files_frame|]. intros [[k a] g].
  unfold provision.
  apply only_writes_bind_returned; [apply only_writes_stages|].
  intros w u w' Hu. apply only_writes_create_or_update_cfg_files.
  by apply stages_firebase_config_file in Hu.
Qed.

(** X1: whatever the engine does and however the run ends, [run] leaves
    every file other than [Pulumi.yaml] beside the script and the
    firebase manifest exactly as it found it: the configuration, the
    admin secrets and every file of the extensions directory are never
    written or removed. *)
Theorem run_only_writes_pulumi_file_and_manifest (w : world) (path : string) :
  path <> pulumi_file E ->
  path <> firebase_config args ->
  files (snd (run E args w)) !! path = files w !! path.
Proof.
  intros Hp Hf.
  assert (H : only_writes managed (run E args)).
  { pose proof only_writes_deploy_environment.
    unfold run, get_gcloud_config. eauto 20 with files_frame. }
  apply H. by intros [?|?].
Qed.

End RunFrame.

Lemma run_only_writes_pulumi_file_and_manifest_witness :
  "secrets" <> pulumi_file steady /\
  "secrets" <> firebase_config (sample_args "up" "dev,prod") /\
  files (snd (run steady (sample_args "up" "dev,prod") sample_world))
    !! "secrets"
  = files sample_world !! "secrets".
Proof.
  assert (H1 : "secrets" <> pulumi_file steady) by (by vm_compute).
  assert (H2 : "secrets" <> firebase_config (sample_args "up" "dev,prod"))
    by (by vm_compute).
  split; [exact H1|]. split; [exact H2|].
  exact (run_only_writes_pulumi_file_and_manifest steady
           (sample_args "up" "dev,prod") sample_world "secrets" H1 H2).
Defined.

(** ** The stages and the files *)

Section StageFiles.

Variable E : Externals.
Variables (args : Args) (c : EnvConfig) (username : string).
Variables (env_conf : value) (project_name : string).
Variables (admin_api_key admin_app_id gcp_project : value).

(** X2: once the key list of the environment is built, the [finally]
    of the API-key stage tries to remove [Pulumi.yaml] whether the guarded
    block returned, raised an [Exception] (logged, outcome "skip") or
    exited the process.  When the removal succeeds, the file is gone when
    the stage ends and the outcome of the guarded block stands.  When the
    removal itself raises, that exception replaces the outcome of the
    stage, and the files are as the guarded block left them. *)
Theorem api_keys_stage_removes_pulumi_file env_api_keys algolia_api_keys w :
  py_get env_conf "algoliaApiKeys" (VList []) = Ret env_api_keys ->
  py_add (cfg_algolia_api_keys c) env_api_keys = Ret algolia_api_keys ->
  let guarded :=
    try_except
      (api_keys_try E args username project_name admin_api_key admin_app_id
         gcp_project algolia_api_keys)
      is_Exception
      (fun e => logging Error (MsgException e);; mret true) in
  let stage :=
    api_keys_stage E args c env_conf username project_name
      admin_api_key admin_app_id gcp_project w in
  match raises E (snd (guarded w)) (Unlink (pulumi_file E)) with
  | None =>
      fst stage = fst (guarded w) /\
      files (snd stage) !! pulumi_file E = None
  | Some e =>
      fst stage = Raise e /\
      files (snd stage) = files (snd (guarded w))
  end.
Proof.
  intros Hget Hadd guarded stage.
  assert (Hs : stage = try_finally guarded (unlink E (pulumi_file E)) w).
  { subst stage guarded. unfold api_keys_stage. run_script.
    by rewrite Hget, Hadd. }
  rewrite Hs. unfold try_finally, unlink, do_call, remove_file. run_script.
  destruct (guarded w) as [r w1]. cbn [fst snd].
  destruct (raises E w1 (Unlink (pulumi_file E))) as [e|].
  - by destruct r.
  - destruct r; (split; [reflexivity|]); apply lookup_delete_eq.
Qed.

(** X3: the index stage never writes or removes a file, whatever the
    engine does. *)
Theorem indexes_stage_keeps_files w :
  files (snd (indexes_stage E args c env_conf project_name
                admin_api_key admin_app_id w))
  = files w.
Proof.
  apply map_eq. intros path.
  assert (H : only_writes (fun _ => False)
                (indexes_stage E args c env_conf project_name
                   admin_api_key admin_app_id)).
  { pose proof (only_writes_do_call E (fun _ => False)).
    pose proof (only_writes_execute_pulumi_verb E (fun _ => False)).
    unfold indexes_stage, indexes_try. eauto 20 with files_frame. }
  apply H. tauto.
Qed.

End StageFiles.

Lemma api_keys_stage_removes_pulumi_file_witness :
  let w := World (<["/opt/agp/Pulumi.yaml" := Raw "stale"]> (files sample_world))
             [] in
  let stage (E : Externals) :=
    api_keys_stage E (sample_args "up" "dev") sample_env_config (VDict [])
      "ops" "acme--search-dev" (VStr "k1") (VStr "A1") (VStr "p-dev") w in
  py_get (VDict []) "algoliaApiKeys" (VList []) = Ret (VList []) /\
  py_add (cfg_algolia_api_keys sample_env_config) (VList [])
  = Ret (cfg_algolia_api_keys sample_env_config) /\
  files w !! "/opt/agp/Pulumi.yaml" = Some (Raw "stale") /\
  (fst (stage failing) = Ret true /\
   files (snd (stage failing)) !! "/opt/agp/Pulumi.yaml" = None) /\
  (fst (stage locked_directory) = Raise (OtherError "PermissionError") /\
   files (snd (stage locked_directory)) !! "/opt/agp/Pulumi.yaml"
   = Some (Raw "stale")).
Proof.
  intros w stage. split; [reflexivity|]. split; [reflexivity|].
  split; [reflexivity|]. split.
  - pose proof (api_keys_stage_removes_pulumi_file failing
                  (sample_args "up" "dev") sample_env_config "ops" (VDict [])
                  "acme--search-dev" (VStr "k1") (VStr "A1") (VStr "p-dev")
                  (VList []) (cfg_algolia_api_keys sample_env_config) w
                  eq_refl eq_refl) as H.
    vm_compute in H. vm_compute. exact H.
  - pose proof (api_keys_stage_removes_pulumi_file locked_directory
                  (sample_args "up" "dev") sample_env_config "ops" (VDict [])
                  "acme--search-dev" (VStr "k1") (VStr "A1") (VStr "p-dev")
                  (VList []) (cfg_algolia_api_keys sample_env_config) w
                  eq_refl eq_refl) as [H1 H2].
    split; [exact H1|]. unfold stage. rewrite H2. vm_compute. reflexivity.
Defined.

(** ** Verbs *)

Section Verbs.

Variable E : Externals.

(** X4: [execute_pulumi_verb] never returns from a preview.  When the
    engine's preview succeeds the plan is logged and the function exits
    with status 0; when it raises, that exception leaves the function and
    nothing is logged. *)
Theorem preview_never_returns (stack_name : string) (w : world) :
  execute_pulumi_verb E stack_name "preview" w
  = match raises E w (StackPreview stack_name) with
    | None =>
        (Raise (SystemExit 0),
         World (files w)
           (trace w ++ [ECall (StackPreview stack_name);
                        ELog Info
                          (MsgPreview
                             (returns_response E w (StackPreview stack_name)))]))
    | Some e =>
        (Raise e, World (files w) (trace w ++ [ECall (StackPreview stack_name)]))
    end.
Proof.
  unfold execute_pulumi_verb.
  change (String.eqb "preview" "preview") with true. cbv iota.
  unfold call_response, do_call. run_script.
  destruct (raises E w (StackPreview stack_name)); [done|].
  cbn [files trace]. by rewrite <- app_assoc.
Qed.

(** X5: a verb that is none of [preview], [rm], [rm-stack] and [up]
    reaches no stack: the only effect is the error that is logged, and
    the function exits with status 1. *)
Theorem unknown_verb_exits (stack_name verb : string) (w : world) :
  verb <> "preview" -> verb <> "rm" -> verb <> "rm-stack" -> verb <> "up" ->
  execute_pulumi_verb E stack_name verb w
  = (Raise (SystemExit 1),
     World (files w) (trace w ++ [ELog Error (MsgUnknownVerb verb)])).
Proof.
  intros H1 H2 H3 H4. unfold execute_pulumi_verb.
  apply String.eqb_neq in H1, H2, H3, H4. by rewrite H1, H2, H3, H4.
Qed.

(** X6: [rm-stack] destroys the resources first and removes the stack
    only when that succeeded; a failed destroy leaves the function before
    [remove_stack] is called.  When both calls succeed the response is
    [None], whatever the destroy reported. *)
Theorem rm_stack_destroys_then_removes (stack_name : string) (w : world) :
  let w1 := World (files w)
              (trace w ++ [ELog Info (MsgRemovingResources stack_name);
                           ECall (StackDestroy stack_name)]) in
  let w2 := World (files w)
              (trace w1 ++ [ELog Info (MsgRemovingStack stack_name);
                            ECall (RemoveStack stack_name)]) in
  execute_pulumi_verb E stack_name "rm-stack" w
  = match raises E (World (files w)
                      (trace w ++ [ELog Info (MsgRemovingResources stack_name)]))
            (StackDestroy stack_name) with
    | Some e => (Raise e, w1)
    | None =>
        match raises E (World (files w)
                          (trace w1 ++ [ELog Info (MsgRemovingStack stack_name)]))
                (RemoveStack stack_name) with
        | Some e => (Raise e, w2)
        | None => (Ret NoneResult, w2)
        end
    end.
Proof.
  intros w1 w2. subst w1 w2.
  unfold execute_pulumi_verb.
  change (String.eqb "rm-stack" "preview") with false.
  change (String.eqb "rm-stack" "rm" || String.eqb "rm-stack" "rm-stack")
    with true.
  change (String.eqb "rm-stack" "rm-stack") with true. cbv iota.
  unfold call_response, do_call. run_script. cbn [files trace].
  destruct (raises E _ (StackDestroy stack_name));
    [by rewrite <- app_assoc|].
  cbn [files trace].
  rewrite <- !app_assoc. simpl app.
  destruct (raises E _ (RemoveStack stack_name)); reflexivity.
Qed.

End Verbs.

Lemma unknown_verb_exits_witness :
  "status" <> "preview" /\ "status" <> "rm" /\ "status" <> "rm-stack" /\
  "status" <> "up" /\
  execute_pulumi_verb calm "acme--search-dev-indexes" "status" sample_world
  = (Raise (SystemExit 1),
     World (files sample_world)
       (trace sample_world ++ [ELog Error (MsgUnknownVerb "status")])).
Proof.
  assert (H1 : "status" <> "preview") by done.
  assert (H2 : "status" <> "rm") by done.
  assert (H3 : "status" <> "rm-stack") by done.
  assert (H4 : "status" <> "up") by done.
  repeat (split; [assumption|]).
  exact (unknown_verb_exits calm "acme--search-dev-indexes" "status"
           sample_world H1 H2 H3 H4).
Defined.

(** ** When the file synchronisation has nothing to do *)

Lemma only_writes_weaken {A : Type} (allowed allowed' : string -> Prop)
    (m : M A) :
  (forall path, allowed path -> allowed' path) ->
  only_writes allowed m -> only_writes allowed' m.
Proof. intros Hsub Hm w path Hp. apply Hm. auto. Qed.

Lemma bind_ret_inv {A B : Type} (m : M A) (f : A -> M B) w b w' :
  (m ≫= f) w = (Ret b, w') ->
  exists a w1, m w = (Ret a, w1) /\ f a w1 = (Ret b, w').
Proof.
  unfold mbind, M_bind. destruct (m w) as [[a|e] w1]; [eauto|done].
Qed.

Section QuietSync.

Variable E : Externals.
Variable args : Args.

Lemma indexes_try_skip_not_up project_name k a idxs w skip w' :
  verb args <> "up" ->
  indexes_try E args project_name k a idxs w = (Ret skip, w') ->
  skip = true.
Proof.
  intros Hverb. unfold indexes_try. intros H.
  apply bind_ret_inv in H as (_ & w1 & _ & H).
  apply bind_ret_inv in H as (_ & w2 & _ & H).
  apply bind_ret_inv in H as (_ & w3 & _ & H).
  apply bind_ret_inv in H as (resp & w4 & _ & H).
  injection H as <- _. by apply skip_file_update_not_up.
Qed.

Lemma indexes_stage_skip_not_up c env_conf project_name k a w skip idxs w' :
  verb args <> "up" ->
  indexes_stage E args c env_conf project_name k a w = (Ret (skip, idxs), w') ->
  skip = true.
Proof.
  intros Hverb. unfold indexes_stage. intros H.
  apply bind_ret_inv in H as (ei & w1 & _ & H).
  apply bind_ret_inv in H as (ai & w2 & _ & H).
  apply bind_ret_inv in H as (s & w3 & Htry & H).
  injection H as <- _ _. unfold try_except in Htry.
  destruct (indexes_try E args project_name k a ai w2) as [[s'|e] w4] eqn:Hi.
  - injection Htry as <- _. by eapply indexes_try_skip_not_up.
  - by injection Htry as <- _.
Qed.

Lemma api_keys_try_skip_not_up username project_name k a g keys w skip w' :
  verb args <> "up" ->
  api_keys_try E args username project_name k a g keys w = (Ret skip, w') ->
  skip = true.
Proof.
  intros Hverb. unfold api_keys_try. intros H.
  apply bind_ret_inv in H as (_ & w1 & _ & H).
  apply bind_ret_inv in H as (_ & w2 & _ & H).
  apply bind_ret_inv in H as (_ & w3 & _ & H).
  apply bind_ret_inv in H as (resp & w4 & _ & H).
  apply bind_ret_inv in H as (secrets & w5 & _ & H).
  apply bind_ret_inv in H as (_ & w6 & _ & H).
  apply bind_ret_inv in H as (_ & w7 & _ & H).
  apply bind_ret_inv in H as (resp' & w8 & _ & H).
  injection H as <- _. by apply skip_file_update_not_up.
Qed.

Lemma api_keys_stage_skip_not_up c env_conf username project_name k a g
    w skip w' :
  verb args <> "up" ->
  api_keys_stage E args c env_conf username project_name k a g w
  = (Ret skip, w') ->
  skip = true.
Proof.
  intros Hverb. unfold api_keys_stage. intros H.
  apply bind_ret_inv in H as (ek & w1 & _ & H).
  apply bind_ret_inv in H as (keys & w2 & _ & H).
  unfold try_finally, try_except in H.
  destruct (api_keys_try E args username project_name k a g keys w2)
    as [[s|e] w3] eqn:Hk.
  - destruct (unlink E (pulumi_file E) w3) as [[[]|e'] w4]; [|done].
    injection H as <- _. by eapply api_keys_try_skip_not_up.
  - destruct (is_Exception e).
    + revert H. run_script.
      destruct (unlink E (pulumi_file E) _) as [[[]|e'] w4]; [|done].
      by intros [= <- _].
    + by destruct (unlink E (pulumi_file E) w3) as [[[]|e'] w4].
Qed.

(** What the stages hand to the file synchronisation. *)
Lemma stages_returned c username env env_conf project_name k a g w u w' :
  stages E args c username env env_conf project_name k a g w = (Ret u, w') ->
  exists fl,
    stage_flags args k a g = Ret fl /\
    (deploy_indexes fl = false -> algolia_indexes u = VList []) /\
    (verb args <> "up" ->
     (deploy_indexes fl = true \/ flag_skip_update_extensions fl = true) ->
     skip_update_extensions u = true) /\
    (verb args <> "up" ->
     (deploy_api_keys fl = true \/ flag_skip_update_firebase_config fl = true) ->
     skip_update_firebase_config u = true).
Proof.
  unfold stages. intros H.
  apply bind_ret_inv in H as (fl & w1 & Hfl & H).
  injection Hfl as Hfl _.
  apply bind_ret_inv in H as ([skip idxs] & w2 & Hi & H).
  apply bind_ret_inv in H as (skip' & w3 & Hk & H).
  injection H as <- _. exists fl. cbn.
  split; [exact Hfl|]. split; [|split].
  - intros Hd. rewrite Hd in Hi. by injection Hi as _ <- _.
  - intros Hverb Hor. destruct (deploy_indexes fl).
    + by eapply indexes_stage_skip_not_up.
    + injection Hi as <- _ _. by destruct Hor.
  - intros Hverb Hor. destruct (deploy_api_keys fl).
    + by eapply api_keys_stage_skip_not_up.
    + injection Hk as <- _. by destruct Hor.
Qed.

Lemma stage_flags_inv k a g fl :
  stage_flags args k a g = Ret fl ->
  (fl = {| deploy_indexes := false;
           deploy_api_keys := false;
           flag_skip_update_extensions := true;
           flag_skip_update_firebase_config := true |}) \/
  (deploy_indexes fl
   = (if negb (indexes_only args) && negb (api_keys_only args)
      then true else indexes_only args) /\
   deploy_api_keys fl
   = (if negb (indexes_only args) && negb (api_keys_only args)
      then true else api_keys_only args)).
Proof.
  unfold stage_flags.
  destruct (credentials_incomplete k a g) as [[|]|e]; simpl;
    [intros [= <-]; by left|intros [= <-]; by right|done].
Qed.

(** With both flags at skip, or without indexes, the loop of
    [create_or_update_cfg_files] touches no file. *)
Lemma create_or_update_cfg_files_quiet u :
  (skip_update_extensions u = true /\ skip_update_firebase_config u = true) \/
  algolia_indexes u = VList [] ->
  only_writes (fun _ => False) (create_or_update_cfg_files E u).
Proof.
  intros [[H1 H2]|H]; unfold create_or_update_cfg_files.
  - apply only_writes_bind; [auto with files_frame|]. intros idxs.
    apply only_writes_for_each. intros index. unfold cfg_files_body.
    rewrite H1, H2. simpl. eauto 10 with files_frame.
  - rewrite H. by intros w path _.
Qed.

Variable allowed : string -> Prop.
Hypothesis allowed_pulumi_file : allowed (pulumi_file E).

Lemma only_writes_stages_pulumi c username env env_conf project_name k a g :
  only_writes allowed
    (stages E args c username env env_conf project_name k a g).
Proof.
  pose proof (only_writes_do_call E allowed).
  pose proof (only_writes_call_value E allowed).
  pose proof (only_writes_execute_pulumi_verb E allowed).
  pose proof (only_writes_write_to_file E allowed).
  unfold stages.
  apply only_writes_bind; [auto with files_frame|]. intros fl.
  apply only_writes_bind.
  { destruct (deploy_indexes fl); [|auto with files_frame].
    unfold indexes_stage, indexes_try. eauto 20 with files_frame. }
  intros [skip idxs].
  apply only_writes_bind; [|auto with files_frame].
  destruct (deploy_api_keys fl); [|auto with files_frame].
  unfold api_keys_stage, api_keys_try, get_secret_values, create_pulumi_file.
  eauto 40 with files_frame.
Qed.

(** The run, when every environment reaches the file synchronisation
    with nothing to do. *)
Lemma only_writes_run_quiet :
  (forall c username env env_conf project_name k a g w u w',
     stages E args c username env env_conf project_name k a g w = (Ret u, w') ->
     (skip_update_extensions u = true /\ skip_update_firebase_config u = true)
     \/ algolia_indexes u = VList []) ->
  only_writes allowed (run E args).
Proof.
  intros Hquiet.
  pose proof (only_writes_call_value E allowed).
  pose proof (only_writes_get_config_from_yaml_file E allowed).
  pose proof (only_writes_get_env_config allowed).
  pose proof (only_writes_get_agp_admin_config allowed).
  assert (Hdeploy : forall c username env,
            only_writes allowed (deploy_environment E args c username env)).
  { intros c username env. unfold deploy_environment.
    apply only_writes_bind; [auto with files_frame|]. intros env_conf.
    apply only_writes_bind; [auto with files_frame|]. intros env_prefix.
    apply only_writes_bind; [auto with files_frame|]. intros env_ns.
    apply only_writes_bind; [auto with files_frame|]. intros [[k a] g].
    unfold provision.
    apply only_writes_bind_returned; [apply only_writes_stages_pulumi|].
    intros w u w' Hu.
    apply (only_writes_weaken (fun _ => False)); [tauto|].
    apply create_or_update_cfg_files_quiet. by eapply Hquiet. }
  unfold run, get_gcloud_config. eauto 20 with files_frame.
Qed.

End QuietSync.

(** X7: with a verb other than [up], and [--indexes-only] and
    [--api-keys-only] both set or both unset, a run changes no file but
    [Pulumi.yaml]: the manifest is never rewritten, whatever the engine
    answers. *)
Theorem only_up_rewrites_the_manifest (E : Externals) (args : Args)
    (w : world) (path : string) :
  verb args <> "up" ->
  indexes_only args = api_keys_only args ->
  path <> pulumi_file E ->
  files (snd (run E args w)) !! path = files w !! path.
Proof.
  intros Hverb Hflags Hpath.
  apply (only_writes_run_quiet E args (fun p => p = pulumi_file E) eq_refl);
    [|done].
  intros c username env env_conf project_name k a g w0 u w' Hu. left.
  apply stages_returned in Hu as (fl & Hfl & _ & Hext & Hfb).
  apply stage_flags_inv in Hfl as [->|[Hdi Hdk]].
  - split; [apply Hext|apply Hfb]; auto.
  - rewrite <- Hflags in Hdi, Hdk.
    split; [apply Hext|apply Hfb]; try done; left.
    + rewrite Hdi. by destruct (indexes_only args).
    + rewrite Hdk. by destruct (indexes_only args).
Qed.

Lemma only_up_rewrites_the_manifest_witness :
  verb (sample_args "rm-stack" "dev,prod") <> "up" /\
  indexes_only (sample_args "rm-stack" "dev,prod")
  = api_keys_only (sample_args "rm-stack" "dev,prod") /\
  "firebase.json" <> pulumi_file calm /\
  files (snd (run calm (sample_args "rm-stack" "dev,prod") sample_world))
    !! "firebase.json"
  = files sample_world !! "firebase.json".
Proof.
  assert (H1 : verb (sample_args "rm-stack" "dev,prod") <> "up") by done.
  assert (H3 : "firebase.json" <> pulumi_file calm) by (by vm_compute).
  split; [exact H1|]. split; [reflexivity|]. split; [exact H3|].
  exact (only_up_rewrites_the_manifest calm (sample_args "rm-stack" "dev,prod")
           sample_world "firebase.json" H1 eq_refl H3).
Defined.

(** X8: with [--api-keys-only] alone the index list handed to the file
    synchronisation is empty, so a run changes no file but [Pulumi.yaml]
    even when the API-key stage reports changes. *)
Theorem api_keys_only_never_synchronises (E : Externals) (args : Args)
    (w : world) (path : string) :
  indexes_only args = false ->
  api_keys_only args = true ->
  path <> pulumi_file E ->
  files (snd (run E args w)) !! path = files w !! path.
Proof.
  intros Hi Hk Hpath.
  apply (only_writes_run_quiet E args (fun p => p = pulumi_file E) eq_refl);
    [|done].
  intros c username env env_conf project_name k a g w0 u w' Hu. right.
  apply stages_returned in Hu as (fl & Hfl & Hnil & _ & _).
  apply Hnil.
  apply stage_flags_inv in Hfl as [->|[Hdi _]]; [done|].
  by rewrite Hdi, Hi, Hk.
Qed.

Lemma api_keys_only_never_synchronises_witness :
  let args := with_only_flags (sample_args "up" "dev,prod") false true in
  indexes_only args = false /\
  api_keys_only args = true /\
  "firebase.json" <> pulumi_file calm /\
  fst (run calm args sample_world) = Ret tt /\
  files (snd (run calm args sample_world)) !! "firebase.json"
  = files sample_world !! "firebase.json".
Proof.
  intros args.
  assert (H3 : "firebase.json" <> pulumi_file calm) by (by vm_compute).
  split; [reflexivity|]. split; [reflexivity|]. split; [exact H3|].
  split; [vm_compute; reflexivity|].
  exact (api_keys_only_never_synchronises calm args sample_world
           "firebase.json" eq_refl eq_refl H3).
Defined.

(** ** Stage selection and unknown environments *)

(** X9: setting both [--indexes-only] and [--api-keys-only] is the same
    as setting neither: the gate computes the same flags from the same
    credentials, and the two runs are equal, in outcome, files and
    trace. *)
Theorem both_only_flags_cancel (E : Externals) (args : Args) (w : world) :
  (forall k a g,
     stage_flags (with_only_flags args true true) k a g
     = stage_flags (with_only_flags args false false) k a g) /\
  run E (with_only_flags args true true) w
  = run E (with_only_flags args false false) w.
Proof.
  split.
  - intros k a g. unfold stage_flags.
    destruct (credentials_incomplete k a g) as [[|]|e]; reflexivity.
  - reflexivity.
Qed.

(** X10: an environment name that the configuration does not list is
    not skipped: [envs.get] answers [None], reading its prefix raises
    [AttributeError] before anything is logged or called, and the loop
    ends there, the remaining environments unprocessed. *)
Theorem unknown_environment_ends_the_run (E : Externals) (args : Args)
    (c : EnvConfig) (username name : string) (em : list (string * value))
    (rest : list value) (w : world) :
  cfg_environments c = VDict em ->
  dict_lookup name em = None ->
  for_each (VStr name :: rest) (deploy_environment E args c username) w
  = (Raise AttributeError, w).
Proof.
  intros Hc Hname. rewrite for_each_cons.
  unfold deploy_environment. run_script. rewrite Hc.
  unfold py_get_key. by rewrite Hname.
Qed.

Lemma unknown_environment_ends_the_run_witness :
  let em := [("dev", VDict [("prefix", VStr "acme"); ("namespace", VStr "search")]);
             ("prod", VDict [("prefix", VStr "acme"); ("namespace", VStr "search")])] in
  cfg_environments sample_env_config = VDict em /\
  dict_lookup "staging" em = None /\
  for_each [VStr "staging"; VStr "dev"]
    (deploy_environment calm (sample_args "up" "staging,dev")
       sample_env_config "ops") sample_world
  = (Raise AttributeError, sample_world).
Proof.
  intros em. split; [reflexivity|]. split; [reflexivity|].
  exact (unknown_environment_ends_the_run calm (sample_args "up" "staging,dev")
           sample_env_config "ops" "staging" em [VStr "dev"] sample_world
           eq_refl eq_refl).
Defined.

(** ** Reading the admin secrets *)

(** X11: a secrets file that cannot be opened is fatal.  [open] raises
    [FileNotFoundError] inside the [try] of [get_agp_admin_config], the
    [except Exception] clause logs it and the process exits with
    status 1. *)
Theorem missing_secrets_file_is_fatal (config_file env : string) (w : world) :
  files w !! config_file = None ->
  get_agp_admin_config config_file env w
  = (Raise (SystemExit 1),
     World (files w)
       (trace w ++ [ELog Error (MsgException FileNotFoundError)])).
Proof.
  intros Hfile.
  unfold get_agp_admin_config, try_except, get_config_from_json_file.
  run_script. by rewrite (open_file_none _ _ Hfile).
Qed.

Lemma missing_secrets_file_is_fatal_witness :
  files sample_world !! "no-such-file" = None /\
  get_agp_admin_config "no-such-file" "search-dev" sample_world
  = (Raise (SystemExit 1),
     World (files sample_world)
       (trace sample_world ++ [ELog Error (MsgException FileNotFoundError)])).
Proof.
  split; [reflexivity|].
  exact (missing_secrets_file_is_fatal "no-such-file" "search-dev"
           sample_world eq_refl).
Defined.

(** X12: credentials are all or nothing.  When the entry of the
    environment is an object that lacks one of [apiKey], [appId] and
    [gcpProject], the fields that are present are dropped too: the result
    is the triple of empty strings, with the same warning as for a
    missing environment. *)
Theorem partial_credentials_are_dropped (config_file env : string)
    (m entry : list (string * value)) (w : world) :
  files w !! config_file = Some (Doc (VDict m)) ->
  dict_lookup env m = Some (VDict entry) ->
  dict_lookup "apiKey" entry = None \/
  dict_lookup "appId" entry = None \/
  dict_lookup "gcpProject" entry = None ->
  get_agp_admin_config config_file env w
  = (Ret (VStr "", VStr "", VStr ""),
     World (files w)
       (trace w ++ [ELog Warning (MsgEnvMissing env config_file)])).
Proof.
  intros Hfile Henv Hmissing.
  unfold get_agp_admin_config, try_except, get_config_from_json_file.
  run_script. rewrite (open_file_some _ _ _ Hfile). run_script.
  unfold py_getitem. rewrite Henv.
  destruct (dict_lookup "apiKey" entry) as [k|]; [|reflexivity].
  destruct (dict_lookup "appId" entry) as [a|]; [|reflexivity].
  destruct (dict_lookup "gcpProject" entry) as [g|]; [|reflexivity].
  by destruct Hmissing as [? | [? | ?]].
Qed.

Lemma partial_credentials_are_dropped_witness :
  let m := [("search-dev", VDict [("apiKey", VStr "k1"); ("appId", VStr "A1")])] in
  let w := World {[ "secrets" := Doc (VDict m) ]} [] in
  files w !! "secrets" = Some (Doc (VDict m)) /\
  dict_lookup "search-dev" m
  = Some (VDict [("apiKey", VStr "k1"); ("appId", VStr "A1")]) /\
  dict_lookup "gcpProject" [("apiKey", VStr "k1"); ("appId", VStr "A1")] = None /\
  get_agp_admin_config "secrets" "search-dev" w
  = (Ret (VStr "", VStr "", VStr ""),
     World (files w) [ELog Warning (MsgEnvMissing "search-dev" "secrets")]).
Proof.
  intros m w. split; [reflexivity|]. split; [reflexivity|].
  split; [reflexivity|].
  apply (partial_credentials_are_dropped "secrets" "search-dev" m
           [("apiKey", VStr "k1"); ("appId", VStr "A1")] w eq_refl eq_refl).
  right. right. reflexivity.
Defined.

(** X13: for an entry with all three fields the credentials are returned
    as the file has them, whatever their JSON type, without a log entry
    and without any other effect. *)
Theorem complete_credentials_are_returned (config_file env : string)
    (m entry : list (string * value)) (k a g : value) (w : world) :
  files w !! config_file = Some (Doc (VDict m)) ->
  dict_lookup env m = Some (VDict entry) ->
  dict_lookup "apiKey" entry = Some k ->
  dict_lookup "appId" entry = Some a ->
  dict_lookup "gcpProject" entry = Some g ->
  get_agp_admin_config config_file env w = (Ret (k, a, g), w).
Proof.
  intros Hfile Henv Hk Ha Hg.
  unfold get_agp_admin_config, try_except, get_config_from_json_file.
  run_script. rewrite (open_file_some _ _ _ Hfile). run_script.
  unfold py_getitem. by rewrite Henv, Hk, Ha, Hg.
Qed.

Lemma complete_credentials_are_returned_witness :
  files sample_world !! "secrets" = Some (Doc (VDict sample_secret_entries)) /\
  get_agp_admin_config "secrets" "search-prod" sample_world
  = (Ret (VStr "k2", VStr "A2", VStr "p-prod"), sample_world).
Proof.
  split; [reflexivity|].
  exact (complete_credentials_are_returned "secrets" "search-prod"
           sample_secret_entries
           [("apiKey", VStr "k2"); ("appId", VStr "A2");
            ("gcpProject", VStr "p-prod")]
           (VStr "k2") (VStr "A2") (VStr "p-prod") sample_world
           eq_refl eq_refl eq_refl eq_refl eq_refl).
Defined.

(** ** Writing files *)

(** X14: [write_to_file] never lets a failed write out.  When opening
    the file raises an [Exception], the error is logged, the function
    returns normally and no file has changed; when nothing is raised the
    file holds the data and every other file is as before. *)
Theorem write_to_file_outcomes (E : Externals) (filename : string)
    (data : content) (w : world) :
  (forall e,
     raises E w (OpenForWriting filename) = Some e ->
     is_Exception e = true ->
     write_to_file E filename data w
     = (Ret tt,
        World (files w)
          (trace w ++ [ECall (OpenForWriting filename);
                       ELog Error (MsgWriteError filename e)]))) /\
  (raises E w (OpenForWriting filename) = None ->
   write_to_file E filename data w
   = (Ret tt,
      World (<[filename := data]> (files w))
        (trace w ++ [ECall (OpenForWriting filename)]))).
Proof.
  split.
  - intros e He Hexc. unfold write_to_file, try_except, do_call, set_file.
    run_script. rewrite He, Hexc. cbn [files trace].
    by rewrite <- app_assoc.
  - intros Hok. unfold write_to_file, try_except, do_call, set_file.
    run_script. by rewrite Hok.
Qed.

Lemma write_to_file_outcomes_witness :
  let read_only := {|
    raises := fun _ c =>
      match c with
      | OpenForWriting _ => Some (OtherError "PermissionError")
      | _ => None
      end;
    returns_value := returns_value calm;
    returns_response := returns_response calm;
    int_of_str := fun _ => None;
    repr_container := fun _ => "";
    SCRIPT_DIR := "/opt/agp" |} in
  write_to_file read_only "firebase.json" (Raw "x") sample_world
  = (Ret tt,
     World (files sample_world)
       [ECall (OpenForWriting "firebase.json");
        ELog Error (MsgWriteError "firebase.json" (OtherError "PermissionError"))])
  /\
  write_to_file calm "firebase.json" (Raw "x") sample_world
  = (Ret tt,
     World (<["firebase.json" := Raw "x"]> (files sample_world))
       [ECall (OpenForWriting "firebase.json")]).
Proof.
  intros read_only. split.
  - exact (proj1 (write_to_file_outcomes read_only "firebase.json" (Raw "x")
                    sample_world) (OtherError "PermissionError")
             eq_refl eq_refl).
  - exact (proj2 (write_to_file_outcomes calm "firebase.json" (Raw "x")
                    sample_world) eq_refl).
Defined.

(** ** The manifest *)


Section Manifest.

Variable E : Externals.



(** X16: a manifest that is a JSON object without an ["extensions"]
    entry is not repaired: [.get] answers [None], the assignment raises
    [TypeError], and the manifest is not written. *)
Theorem manifest_without_extensions (u : UpdateDictionary) (name : string)
    (cfg : list (string * value)) (w : world) :
  files w !! firebase_config_file u = Some (Doc (VDict cfg)) ->
  dict_lookup "extensions" cfg = None ->
  update_firebase_config E u name w = (Raise TypeError, w).
Proof.
  intros Hfile Hext.
  unfold update_firebase_config, get_config_from_json_file.
  run_script. rewrite (open_file_some _ _ _ Hfile). run_script.
  unfold py_get. by rewrite Hext.
Qed.

(** X17: the extension files cannot be written.  Whenever the extension
    update is not skipped and the first index is a string, line 352 reads
    the unbound name [admin_app_id]: [create_or_update_cfg_files] raises
    [NameError] at the first index, before any file is written and before
    the manifest is read. *)
Theorem extension_update_raises_name_error (u : UpdateDictionary)
    (index environment : string) (rest : list value)
    (ec : list (string * value)) (w : world) :
  skip_update_extensions u = false ->
  algolia_indexes u = VList (VStr index :: rest) ->
  ud_environment u = VStr environment ->
  environment_config u = VDict ec ->
  create_or_update_cfg_files E u w = (Raise NameError, w).
Proof.
  intros Hskip Hidx Henv Hconf.
  unfold create_or_update_cfg_files. rewrite Hidx. run_script.
  cbn [py_iter for_each]. run_script.
  unfold cfg_files_body, extension_file_name, update_extension_file.
  rewrite Hskip, Henv, Hconf. run_script. cbn [py_replace_dots py_concat negb].
  run_script. unfold py_get.
  by destruct (dict_lookup "algoliaApiKeyName" ec).
Qed.

End Manifest.


Lemma manifest_without_extensions_witness :
  let u := {| skip_update_extensions := true;
              skip_update_firebase_config := false;
              ud_environment := VStr "prod";
              environment_config := VDict [];
              algolia_indexes := VList [VStr "products"];
              firebase_search_extension := VStr "x@1";
              algolia_api_key_name := VStr "search-key";
              admin_app_id := VStr "A2";
              force_data_sync := VStr "no";
              location := VStr "us-west2";
              ud_extensions_dir := "extensions";
              firebase_config_file := "firebase.json" |} in
  let cfg := [("hosting", VDict [("public", VStr "dist")])] in
  let w := World {[ "firebase.json" := Doc (VDict cfg) ]} [] in
  files w !! "firebase.json" = Some (Doc (VDict cfg)) /\
  dict_lookup "extensions" cfg = None /\
  update_firebase_config calm u "search-products.env.prod" w
  = (Raise TypeError, w).
Proof.
  intros u cfg w. split; [reflexivity|]. split; [reflexivity|].
  exact (manifest_without_extensions calm u "search-products.env.prod" cfg w
           eq_refl eq_refl).
Defined.

Lemma extension_update_raises_name_error_witness :
  let u := {| skip_update_extensions := false;
              skip_update_firebase_config := false;
              ud_environment := VStr "prod";
              environment_config := VDict [("prefix", VStr "acme")];
              algolia_indexes := VList [VStr "products"; VStr "orders"];
              firebase_search_extension := VStr "x@1";
              algolia_api_key_name := VStr "search-key";
              admin_app_id := VStr "A2";
              force_data_sync := VStr "no";
              location := VStr "us-west2";
              ud_extensions_dir := "extensions";
              firebase_config_file := "firebase.json" |} in
  skip_update_extensions u = false /\
  create_or_update_cfg_files calm u sample_world
  = (Raise NameError, sample_world).
Proof.
  intros u. split; [reflexivity|].
  exact (extension_update_raises_name_error calm u "products" "prod"
           [VStr "orders"] [("prefix", VStr "acme")] sample_world
           eq_refl eq_refl eq_refl eq_refl).
Defined.

(** ** The programs handed to the engine *)

Lemma str_drop_app (p s : string) : str_drop (String.length p) (p ++ s) = s.
Proof. induction p as [|x p IH]; [by destruct s|exact IH]. Qed.

Lemma str_removeprefix_app (p s : string) : str_removeprefix p (p ++ s) = s.
Proof. unfold str_removeprefix. by rewrite prefix_append, str_drop_app. Qed.

Lemma dict_lookup_key k m :
  In k (dict_keys m) -> exists v, dict_lookup k m = Some v.
Proof.
  induction m as [|[k0 v0] m IH]; simpl; [done|].
  intros [->|Hin].
  - rewrite String.eqb_refl. eauto.
  - destruct (String.eqb k k0); eauto.
Qed.

Lemma gcp_secret_loop_keys username m ks :
  (forall k, In k ks -> In k (dict_keys m)) ->
  gcp_secret_loop username (VDict m) (map VStr ks)
  = Ret (flat_map
           (fun k =>
              let name := str_removeprefix "algolia-api-key-" k in
              [DeclSecret ("secret-" ++ name)
                 ("lester-test-algolia-secret-" ++ name) username;
               DeclSecretVersion ("secret-version-" ++ name) ("secret-" ++ name)
                 (default VNull (dict_lookup k m))])
           ks).
Proof.
  induction ks as [|k ks IH]; intros Hks; [reflexivity|].
  cbn [map gcp_secret_loop flat_map].
  destruct (dict_lookup_key k m) as [v Hv]; [apply Hks; by left|].
  unfold gcp_secret_resources, py_subscript. rewrite Hv.
  rewrite IH; [reflexivity|]. intros k' Hk'. apply Hks. by right.
Qed.

Lemma gcp_secret_loop_object username m :
  create_or_update_gcp_secret username (VDict m)
  = gcp_secret_loop username (VDict m) (map VStr (dict_keys m)) /\
  gcp_secret_loop username (VDict m) (map VStr (dict_keys m))
  = Ret (flat_map
           (fun k =>
              let name := str_removeprefix "algolia-api-key-" k in
              [DeclSecret ("secret-" ++ name)
                 ("lester-test-algolia-secret-" ++ name) username;
               DeclSecretVersion ("secret-version-" ++ name) ("secret-" ++ name)
                 (default VNull (dict_lookup k m))])
           (dict_keys m)).
Proof. split; [reflexivity|]. by apply gcp_secret_loop_keys. Qed.

(** X18: for the outputs of a stack (a JSON object) the secrets program
    never raises and declares, output by output and in their order, one
    secret and one secret version: the name is the output key without a
    leading ["algolia-api-key-"], the secret id is
    ["lester-test-algolia-secret-"] followed by that name, the label is
    the user name and the data is the value of the output. *)
Theorem secrets_program_declares_a_secret_per_output (username : string)
    (m : list (string * value)) :
  create_or_update_gcp_secret username (VDict m)
  = Ret (flat_map
           (fun k =>
              let name := str_removeprefix "algolia-api-key-" k in
              [DeclSecret ("secret-" ++ name)
                 ("lester-test-algolia-secret-" ++ name) username;
               DeclSecretVersion ("secret-version-" ++ name) ("secret-" ++ name)
                 (default VNull (dict_lookup k m))])
           (dict_keys m)).
Proof.
  unfold create_or_update_gcp_secret. cbn [py_iter].
  change (Ret (map VStr (dict_keys m)) ≫= gcp_secret_loop username (VDict m))
    with (gcp_secret_loop username (VDict m) (map VStr (dict_keys m))).
  by apply gcp_secret_loop_keys.
Qed.

Section Programs.

Variable E : Externals.

(** X19: the two programs agree on names.  The API-key program exports
    the key of a specification named [name] under
    ["algolia-api-key-" + name]; fed that output, the secrets program
    strips the prefix again and declares the secret
    ["lester-test-algolia-secret-" + name] with the exported value as
    its data. *)
Theorem exported_key_becomes_secret (spec : list (string * value))
    (name username : string) (resource_name : string) (args : ApiKeyArgs)
    (key_value : value) :
  dict_lookup "name" spec = Some (VStr name) ->
  api_key_resource E (VDict spec) = Ret (resource_name, args) ->
  resource_name = ("algolia-api-key-" ++ name)%string /\
  create_or_update_gcp_secret username (VDict [(resource_name, key_value)])
  = Ret [DeclSecret ("secret-" ++ name)
           ("lester-test-algolia-secret-" ++ name) username;
         DeclSecretVersion ("secret-version-" ++ name) ("secret-" ++ name)
           key_value].
Proof.
  intros Hname Hres.
  assert (Hrn : resource_name = ("algolia-api-key-" ++ name)%string).
  { revert Hres. unfold api_key_resource. cbn [py_get]. rewrite Hname.
    run_script.
    repeat match goal with
           | |- context [dict_lookup ?k spec] => destruct (dict_lookup k spec)
           end;
    repeat match goal with
           | |- context [py_int E ?x] => destruct (py_int E x)
           end; try done; by intros [= <- _]. }
  split; [exact Hrn|].
  destruct (gcp_secret_loop_object username [(resource_name, key_value)])
    as [-> ->].
  cbn [dict_keys map fst flat_map dict_lookup app].
  rewrite String.eqb_refl. rewrite Hrn, str_removeprefix_app. reflexivity.
Qed.

Lemma api_key_loop_app (before rest : list value) :
  (forall k, In k before -> exists r, api_key_resource E k = Ret r) ->
  api_key_loop E (before ++ rest)
  = (flat_map
       (fun k =>
          match api_key_resource E k with
          | Ret (resource_name, args) =>
              [DeclApiKey resource_name args;
               DeclExport resource_name resource_name]
          | Raise _ => []
          end) before
     ++ fst (api_key_loop E rest),
     snd (api_key_loop E rest))%list.
Proof.
  induction before as [|k before IH]; intros Hall.
  - cbn [app flat_map]. by destruct (api_key_loop E rest).
  - destruct (Hall k) as [[rn args] Hk]; [by left|].
    cbn [app flat_map api_key_loop]. rewrite Hk.
    rewrite IH; [reflexivity|]. intros k' Hk'. apply Hall. by right.
Qed.

(** X20: the API-key program declares as it goes and stops at the first
    specification that does not resolve.  When every specification of a
    list resolves, the program declares one key and one export for each,
    in order, and raises nothing.  When such a list is followed by a
    specification that raises (a field that [int] rejects, a
    specification that is not a mapping), the program raises that
    exception with the keys and exports of the specifications before it
    already declared, and declares nothing for the failing one or for any
    after it. *)
Theorem api_key_program_stops_at_first_failure (before : list value) :
  let declared_for (k : value) : list declared :=
    match api_key_resource E k with
    | Ret (resource_name, args) =>
        [DeclApiKey resource_name args;
         DeclExport resource_name resource_name]
    | Raise _ => []
    end in
  (forall k, In k before -> exists r, api_key_resource E k = Ret r) ->
  create_or_update_algolia_api_keys E (VList before)
  = (flat_map declared_for before, None) /\
  length (flat_map declared_for before) = (2 * length before)%nat /\
  (forall k e after,
     api_key_resource E k = Raise e ->
     create_or_update_algolia_api_keys E (VList (before ++ k :: after))
     = (flat_map declared_for before, Some e)).
Proof.
  intros declared_for Hall. split; [|split].
  - unfold create_or_update_algolia_api_keys. cbn [py_iter].
    rewrite <- (app_nil_r before) at 1.
    rewrite (api_key_loop_app _ _ Hall). cbn [api_key_loop fst snd].
    by rewrite app_nil_r.
  - clear -Hall. induction before as [|k before IH]; [reflexivity|].
    destruct (Hall k) as [[rn args] Hk]; [by left|].
    cbn [flat_map]. unfold declared_for at 1. rewrite Hk.
    cbn [app length]. rewrite IH; [lia|].
    intros k' Hk'. apply Hall. by right.
  - intros k e after Hk.
    unfold create_or_update_algolia_api_keys. cbn [py_iter].
    rewrite (api_key_loop_app _ _ Hall). cbn [api_key_loop]. rewrite Hk.
    cbn [fst snd]. by rewrite app_nil_r.
Qed.

End Programs.

Lemma exported_key_becomes_secret_witness :
  let spec := [("name", VStr "reader"); ("acls", VList [VStr "search"])] in
  let args := {| acls := VList [VStr "search"];
                 description := VStr "API Key for reader";
                 indexes := VList [];
                 max_hits_per_query := 0;
                 max_queries_per_ip_per_hour := 15000;
                 referers := VList [];
                 validity := 0 |} in
  dict_lookup "name" spec = Some (VStr "reader") /\
  api_key_resource calm (VDict spec) = Ret ("algolia-api-key-reader", args) /\
  create_or_update_gcp_secret "ops"
    (VDict [("algolia-api-key-reader", VStr "s3cr3t")])
  = Ret [DeclSecret "secret-reader" "lester-test-algolia-secret-reader" "ops";
         DeclSecretVersion "secret-version-reader" "secret-reader"
           (VStr "s3cr3t")].
Proof.
  intros spec args. split; [reflexivity|]. split; [reflexivity|].
  exact (proj2 (exported_key_becomes_secret calm spec "reader" "ops"
                  "algolia-api-key-reader" args (VStr "s3cr3t")
                  eq_refl eq_refl)).
Defined.

Lemma api_key_program_stops_at_first_failure_witness :
  let good := VDict [("name", VStr "reader"); ("acls", VList [VStr "search"])] in
  let bad := VDict [("name", VStr "writer"); ("validity", VStr "soon")] in
  let reader := {| acls := VList [VStr "search"];
                   description := VStr "API Key for reader";
                   indexes := VList [];
                   max_hits_per_query := 0;
                   max_queries_per_ip_per_hour := 15000;
                   referers := VList [];
                   validity := 0 |} in
  let declared := [DeclApiKey "algolia-api-key-reader" reader;
                   DeclExport "algolia-api-key-reader"
                     "algolia-api-key-reader"] in
  api_key_resource calm good = Ret ("algolia-api-key-reader", reader) /\
  api_key_resource calm bad = Raise ValueError /\
  create_or_update_algolia_api_keys calm (VList [good]) = (declared, None) /\
  create_or_update_algolia_api_keys calm (VList [good; bad; good])
  = (declared, Some ValueError).
Proof.
  intros good bad reader declared.
  assert (Hgood : forall k, In k [good] ->
                    exists r, api_key_resource calm k = Ret r).
  { intros k [<-|[]]. eexists. reflexivity. }
  split; [reflexivity|]. split; [reflexivity|].
  destruct (api_key_program_stops_at_first_failure calm [good] Hgood)
    as (Hall & _ & Hstop).
  split; [exact Hall|].
  exact (Hstop bad ValueError [good] eq_refl).
Defined.

(** ** Names and filters *)

Lemma split_char_head c p rest :
  char_free c p = true ->
  str_split (String c EmptyString) (p ++ String c rest)
  = p :: str_split (String c EmptyString) rest.
Proof.
  unfold str_split. induction p as [|x p IH]; intros Hp.
  - change ("" ++ String c rest)%string with (String c rest).
    by rewrite split_go_cons, prefix_char, Ascii.eqb_refl.
  - simpl in Hp. apply andb_true_iff in Hp as [Hx Hp].
    rewrite str_app_cons, split_go_cons, prefix_char.
    apply negb_true_iff in Hx. rewrite Hx. by rewrite (IH Hp).
Qed.

Lemma split_char_none c s :
  char_free c s = true -> str_split (String c EmptyString) s = [s].
Proof.
  unfold str_split. induction s as [|x s IH]; intros Hs; [reflexivity|].
  simpl in Hs. apply andb_true_iff in Hs as [Hx Hs].
  rewrite split_go_cons, prefix_char.
  apply negb_true_iff in Hx. rewrite Hx. by rewrite (IH Hs).
Qed.

(** X21: the user name that labels the secrets is the part of the
    [gcloud] account before its first ["@"], and the whole account when
    it has none. *)
Theorem username_is_the_local_part (user domain : string) :
  char_free "@"%char user = true ->
  username_of (VStr (user ++ "@" ++ domain)) = Ret user /\
  username_of (VStr user) = Ret user.
Proof.
  intros Huser. unfold username_of. split.
  - change ("@" ++ domain)%string with (String "@"%char domain).
    by rewrite split_char_head.
  - by rewrite split_char_none.
Qed.

Lemma username_is_the_local_part_witness :
  char_free "@"%char "ops" = true /\
  username_of (VStr "ops@example.com") = Ret "ops".
Proof.
  split; [reflexivity|].
  exact (proj1 (username_is_the_local_part "ops" "example.com" eq_refl)).
Defined.

Lemma concat_split_comma s : String.concat "," (str_split "," s) = s.
Proof.
  unfold str_split. induction s as [|x s IH]; [reflexivity|].
  rewrite split_go_cons, prefix_char.
  destruct (Ascii.eqb_spec x ","%char) as [->|Hx].
  - cbn [String.length Nat.sub]. cbn [String.concat].
    destruct (split_go "," 0 s) as [|p ps] eqn:Hs.
    + exfalso. revert Hs. apply split_go_nonempty.
    + by rewrite IH.
  - destruct (split_go "," 0 s) as [|p ps] eqn:Hs.
    + exfalso. revert Hs. apply split_go_nonempty.
    + destruct ps as [|q ps]; simpl in *; by rewrite <- IH.
Qed.

Lemma list_remove_not_In x l : ~ In x l -> list_remove x l = None.
Proof.
  induction l as [|y l IH]; simpl; [done|]. intros Hnot.
  destruct (String.eqb_spec y x) as [->|Hne]; [tauto|].
  rewrite IH; [done|tauto].
Qed.

(** X22: a filter without the token ["all"] is taken as it is: the
    environments of the run are its comma-separated pieces, in order and
    with repetitions and empty pieces kept, so that joining them with
    commas gives the filter back; the configured environments are not
    consulted. *)
Theorem filter_without_all_is_kept (filter : string) (envs : value) :
  ~ In "all" (str_split "," filter) ->
  get_environments_to_deploy filter = str_split "," filter /\
  String.concat "," (get_environments_to_deploy filter) = filter /\
  selected_environments filter envs
  = Ret (map VStr (get_environments_to_deploy filter)).
Proof.
  intros Hnot.
  assert (Hget : get_environments_to_deploy filter = str_split "," filter).
  { unfold get_environments_to_deploy. by rewrite list_remove_not_In. }
  split; [exact Hget|]. split.
  - rewrite Hget. apply concat_split_comma.
  - unfold selected_environments. rewrite Hget.
    destruct (str_split "," filter) as [|t ts] eqn:Hs; [|reflexivity].
    exfalso. revert Hs. apply split_go_nonempty.
Qed.

Lemma filter_without_all_is_kept_witness :
  ~ In "all" (str_split "," "dev,,dev,alle") /\
  get_environments_to_deploy "dev,,dev,alle" = ["dev"; ""; "dev"; "alle"] /\
  selected_environments "dev,,dev,alle" VNull
  = Ret [VStr "dev"; VStr ""; VStr "dev"; VStr "alle"].
Proof.
  assert (H : ~ In "all" (str_split "," "dev,,dev,alle")).
  { vm_compute. intros [H|[H|[H|[H|[]]]]]; discriminate H. }
  split; [exact H|].
  destruct (filter_without_all_is_kept "dev,,dev,alle" VNull H)
    as (H1 & _ & H3).
  split; [exact H1|]. exact H3.
Defined.

(** ** The configuration file *)

(** X23: a configuration without a ["global"] section (or an empty
    document, which loads as [None]) is fatal: [get_env_config] logs the
    [AttributeError] and exits with status 1. *)
Theorem config_without_global_is_fatal (cm : list (string * value)) (w : world) :
  dict_lookup "global" cm = None ->
  get_env_config (VDict cm) w
  = (Raise (SystemExit 1),
     World (files w) (trace w ++ [ELog Error (MsgException AttributeError)])) /\
  get_env_config VNull w
  = (Raise (SystemExit 1),
     World (files w) (trace w ++ [ELog Error (MsgException AttributeError)])).
Proof.
  intros Hg. split; [|reflexivity].
  unfold get_env_config, try_except. run_script. unfold py_get at 1.
  by rewrite Hg.
Qed.

Lemma config_without_global_is_fatal_witness :
  dict_lookup "global" [("algoliaIndexes", VList [])] = None /\
  get_env_config (VDict [("algoliaIndexes", VList [])]) sample_world
  = (Raise (SystemExit 1),
     World (files sample_world)
       (trace sample_world ++ [ELog Error (MsgException AttributeError)])).
Proof.
  split; [reflexivity|].
  exact (proj1 (config_without_global_is_fatal
                  [("algoliaIndexes", VList [])] sample_world eq_refl)).
Defined.

(** X24: with a ["global"] mapping, [get_env_config] never fails and has
    no effect.  The API-key name, the force-data-sync flag, the location,
    the environments and the extension version are read from ["global"],
    with the defaults ["us-west2"] for the location and
    ["algolia/firestore-algolia-search@0.5.13"] for the extension; the
    shared indexes and API keys are read from the top level of the
    document, not from ["global"], and are [None] when absent. *)
Theorem config_is_read_with_defaults (cm gm : list (string * value))
    (w : world) :
  dict_lookup "global" cm = Some (VDict gm) ->
  get_env_config (VDict cm) w
  = (Ret {| cfg_algolia_api_key_name :=
              default VNull (dict_lookup "algoliaApiKeyName" gm);
            cfg_force_data_sync :=
              default (VStr "no") (dict_lookup "forceDataSync" gm);
            cfg_location :=
              default (VStr "us-west2") (dict_lookup "location" gm);
            cfg_environments := default VNull (dict_lookup "environments" gm);
            cfg_algolia_indexes :=
              default VNull (dict_lookup "algoliaIndexes" cm);
            cfg_algolia_api_keys :=
              default VNull (dict_lookup "algoliaApiKeys" cm);
            cfg_firebase_search_extension :=
              default (VStr "algolia/firestore-algolia-search@0.5.13")
                (dict_lookup "searchExtension" gm) |}, w).
Proof.
  intros Hg. unfold get_env_config, try_except. run_script.
  unfold py_get. rewrite Hg.
  repeat match goal with
         | |- context [dict_lookup ?k ?m] => destruct (dict_lookup k m)
         end; reflexivity.
Qed.

Lemma config_is_read_with_defaults_witness :
  let gm := [("algoliaIndexes", VList [VStr "ignored"]);
             ("location", VStr "europe-west1")] in
  let cm := [("global", VDict gm)] in
  dict_lookup "global" cm = Some (VDict gm) /\
  get_env_config (VDict cm) sample_world
  = (Ret {| cfg_algolia_api_key_name := VNull;
            cfg_force_data_sync := VStr "no";
            cfg_location := VStr "europe-west1";
            cfg_environments := VNull;
            cfg_algolia_indexes := VNull;
            cfg_algolia_api_keys := VNull;
            cfg_firebase_search_extension :=
              VStr "algolia/firestore-algolia-search@0.5.13" |},
     sample_world).
Proof.
  intros gm cm. split; [reflexivity|].
  exact (config_is_read_with_defaults cm gm sample_world eq_refl).
Defined.

(** ** The gate on an applied change *)

Lemma dict_del_length k m v :
  dict_lookup k m = Some v -> length m = S (length (dict_del k m)).
Proof.
  induction m as [|[k0 v0] m IH]; simpl; [done|].
  destruct (String.eqb k k0); [done|]. intros H. simpl. f_equal. by apply IH.
Qed.

(** X25: for [up] and a summary that has a ["same"] bucket, the file
    updates are skipped exactly when ["same"] is the only bucket of the
    summary, whatever the counts are. *)
Theorem skip_exactly_when_only_same (m : list (string * value))
    (unchanged : value) :
  dict_lookup "same" m = Some unchanged ->
  skip_file_update (UpResult (VDict m)) "up" = Nat.eqb (length m) 1.
Proof.
  intros Hsame. unfold skip_file_update.
  change (String.eqb "up" "up") with true. cbv iota.
  cbn [summary_resource_changes]. run_script. unfold py_delitem.
  rewrite Hsame. cbn [py_len].
  rewrite (dict_del_length _ _ _ Hsame).
  by destruct (dict_del "same" m).
Qed.

Lemma skip_exactly_when_only_same_witness :
  dict_lookup "same" [("update", VInt 0); ("same", VInt 4)] = Some (VInt 4) /\
  skip_file_update (UpResult (VDict [("update", VInt 0); ("same", VInt 4)])) "up"
  = false.
Proof.
  split; [reflexivity|].
  exact (skip_exactly_when_only_same [("update", VInt 0); ("same", VInt 4)]
           (VInt 4) eq_refl).
Defined.

(** ** Runs that provision nothing *)

Lemma get_agp_admin_config_missing config_file env m w :
  files w !! config_file = Some (Doc (VDict m)) ->
  dict_lookup env m = None ->
  get_agp_admin_config config_file env w
  = (Ret (VStr "", VStr "", VStr ""),
     World (files w)
       (trace w ++ [ELog Warning (MsgEnvMissing env config_file)])).
Proof.
  intros Hfile Hkey.
  unfold get_agp_admin_config, try_except, get_config_from_json_file.
  run_script. rewrite (open_file_some _ _ _ Hfile). run_script.
  unfold py_getitem at 1. by rewrite Hkey.
Qed.

Section NoCredentials.

Variable E : Externals.
Variables (args : Args) (c : EnvConfig) (username : string).

Lemma provision_without_credentials env env_conf project_name w :
  provision E args c username env env_conf project_name
    (VStr "") (VStr "") (VStr "") w
  = (Ret tt, w).
Proof. reflexivity. Qed.

(** X26: environments without an entry in the admin secrets are passed
    over.  When the secrets file is a JSON object and none of the
    selected environments, all of them configured, has its
    [{namespace}-{env}] key in it, the loop of [run] returns normally
    having made no call to the engine and changed no file: the trace
    grows by one warning per environment and nothing else. *)
Theorem no_credentials_no_provisioning (em sm : list (string * value))
    (names : list string) (w : world) :
  cfg_environments c = VDict em ->
  files w !! agp_secrets args = Some (Doc (VDict sm)) ->
  (forall name, In name names ->
     exists ec,
       dict_lookup name em = Some (VDict ec) /\
       dict_lookup
         (py_str E (default VNull (dict_lookup "namespace" ec)) ++ "-" ++ name)
         sm = None) ->
  exists t,
    for_each (map VStr names) (deploy_environment E args c username) w
    = (Ret tt, World (files w) (trace w ++ t)) /\
    length t = length names /\
    Forall (fun ev =>
              exists env,
                ev = ELog Warning (MsgEnvMissing env (agp_secrets args))) t.
Proof.
  intros Hc. revert w. induction names as [|name names IH]; intros w Hfile Hall.
  - exists []. rewrite app_nil_r. by destruct w.
  - destruct (Hall name) as (ec & Hname & Hkey); [by left|].
    pose (key := (py_str E (default VNull (dict_lookup "namespace" ec))
                  ++ "-" ++ name)%string).
    pose (w1 := World (files w)
                  (trace w ++ [ELog Warning (MsgEnvMissing key (agp_secrets args))])).
    assert (Hstep : deploy_environment E args c username (VStr name) w
                    = (Ret tt, w1)).
    { subst w1 key. unfold deploy_environment. run_script. rewrite Hc.
      unfold py_get_key. rewrite Hname. unfold py_get.
      destruct (dict_lookup "prefix" ec) as [prefix|];
        destruct (dict_lookup "namespace" ec) as [ns|];
        cbn [default from_option id] in *;
        change (py_str E (VStr name)) with name;
        rewrite (get_agp_admin_config_missing _ _ _ _ Hfile Hkey);
        by rewrite provision_without_credentials. }
    destruct (IH w1) as (t & Hrest & Hlen & Hwarn).
    + exact Hfile.
    + intros name' Hin. apply Hall. by right.
    + exists (ELog Warning (MsgEnvMissing key (agp_secrets args)) :: t).
      cbn [map]. rewrite for_each_cons, Hstep, Hrest.
      split; [|split].
      * subst w1. cbn [files trace]. by rewrite <- app_assoc.
      * cbn [length]. by rewrite Hlen.
      * constructor; [by exists key|exact Hwarn].
Qed.

End NoCredentials.

Lemma no_credentials_no_provisioning_witness :
  let args := sample_args "up" "all" in
  let w := World {[ "config.yaml" := Doc sample_cfg;
                    "secrets" := Doc (VDict []) ]} [] in
  files w !! agp_secrets args = Some (Doc (VDict [])) /\
  exists t,
    for_each (map VStr ["dev"; "prod"])
      (deploy_environment calm args sample_env_config "ops") w
    = (Ret tt, World (files w) (trace w ++ t)) /\
    length t = 2%nat /\
    Forall (fun ev =>
              exists env,
                ev = ELog Warning (MsgEnvMissing env (agp_secrets args))) t.
Proof.
  intros args w. split; [reflexivity|].
  apply (no_credentials_no_provisioning calm args sample_env_config "ops"
           [("dev", VDict [("prefix", VStr "acme"); ("namespace", VStr "search")]);
            ("prod", VDict [("prefix", VStr "acme"); ("namespace", VStr "search")])]
           [] ["dev"; "prod"] w eq_refl eq_refl).
  intros name [<-|[<-|[]]]; eexists; split; reflexivity.
Defined.

(** ** The loaders *)

(** X27: the two loaders guard the parse, not the [open], and they do
    not guard it alike.  A file that does not exist raises
    [FileNotFoundError] out of either loader, unlogged.  The JSON loader
    catches every [Exception] of the parse: a file that is not JSON is
    logged as an error and ends the process with status 1, and a file
    that is JSON is returned.  The YAML loader catches [yaml.YAMLError]
    only: that one is logged and ends the process with status 1, any other
    exception of [yaml.safe_load] leaves the loader as it is, unlogged,
    and otherwise the loader returns what [yaml.safe_load] returned.
    Neither loader changes a file. *)
Theorem loaders_guard_the_parse_only (E : Externals) (config_file : string)
    (w : world) :
  (files w !! config_file = None ->
   get_config_from_yaml_file E config_file w = (Raise FileNotFoundError, w) /\
   get_config_from_json_file config_file w = (Raise FileNotFoundError, w)) /\
  (forall text,
     files w !! config_file = Some (Raw text) ->
     get_config_from_json_file config_file w
     = (Raise (SystemExit 1),
        World (files w) (trace w ++ [ELog Error (MsgJsonError config_file)]))) /\
  (forall v,
     files w !! config_file = Some (Doc v) ->
     get_config_from_json_file config_file w = (Ret v, w)) /\
  (forall cf,
     files w !! config_file = Some cf ->
     get_config_from_yaml_file E config_file w
     = match raises E w (YamlSafeLoad config_file) with
       | None => (Ret (returns_value E w (YamlSafeLoad config_file)), w)
       | Some e =>
           if is_YAMLError e
           then (Raise (SystemExit 1),
                 World (files w) (trace w ++ [ELog Error MsgYamlError]))
           else (Raise e, w)
       end).
Proof.
  unfold get_config_from_yaml_file, get_config_from_json_file.
  split; [|split; [|split]].
  - intros H. run_script. by rewrite (open_file_none _ _ H).
  - intros text H. run_script. by rewrite (open_file_some _ _ _ H).
  - intros v H. run_script. by rewrite (open_file_some _ _ _ H).
  - intros cf H. run_script. rewrite (open_file_some _ _ _ H).
    unfold try_except, consult.
    destruct (raises E w (YamlSafeLoad config_file)) as [e|]; [|reflexivity].
    by destruct (is_YAMLError e).
Qed.

Lemma loaders_guard_the_parse_only_witness :
  let w := World (<["dates.yaml" := Raw "when: 2024-02-30"]>
                    (files world_with_broken_manifest)) [] in
  files w !! "absent.json" = None /\
  get_config_from_yaml_file picky "absent.json" w
  = (Raise FileNotFoundError, w) /\
  get_config_from_json_file "absent.json" w = (Raise FileNotFoundError, w) /\
  files w !! "firebase.json" = Some (Raw "{") /\
  get_config_from_json_file "firebase.json" w
  = (Raise (SystemExit 1),
     World (files w) [ELog Error (MsgJsonError "firebase.json")]) /\
  files w !! "secrets" = Some (Doc sample_secrets) /\
  get_config_from_json_file "secrets" w = (Ret sample_secrets, w) /\
  files w !! "config.yaml" = Some (Doc sample_cfg) /\
  get_config_from_yaml_file picky "config.yaml" w
  = (Raise (SystemExit 1), World (files w) [ELog Error MsgYamlError]) /\
  get_config_from_yaml_file calm "config.yaml" w = (Ret sample_cfg, w) /\
  files w !! "dates.yaml" = Some (Raw "when: 2024-02-30") /\
  get_config_from_yaml_file picky "dates.yaml" w = (Raise ValueError, w).
Proof.
  intros w.
  pose proof (loaders_guard_the_parse_only picky "absent.json" w)
    as (Habsent & _).
  pose proof (loaders_guard_the_parse_only picky "firebase.json" w)
    as (_ & Hraw & _).
  pose proof (loaders_guard_the_parse_only picky "secrets" w)
    as (_ & _ & Hdoc & _).
  pose proof (loaders_guard_the_parse_only picky "config.yaml" w)
    as (_ & _ & _ & Hyaml).
  pose proof (loaders_guard_the_parse_only calm "config.yaml" w)
    as (_ & _ & _ & Hcalm).
  pose proof (loaders_guard_the_parse_only picky "dates.yaml" w)
    as (_ & _ & _ & Hdates).
  split; [reflexivity|]. split; [exact (proj1 (Habsent eq_refl))|].
  split; [exact (proj2 (Habsent eq_refl))|].
  split; [reflexivity|]. split; [exact (Hraw "{" eq_refl)|].
  split; [reflexivity|]. split; [exact (Hdoc sample_secrets eq_refl)|].
  split; [reflexivity|].
  split; [exact (Hyaml (Doc sample_cfg) eq_refl)|].
  split; [exact (Hcalm (Doc sample_cfg) eq_refl)|].
  split; [reflexivity|].
  exact (Hdates (Raw "when: 2024-02-30") eq_refl).
Defined.
